(** * Engagement accumulator and scoring of [index.py]

    A shallow embedding of the class [ChatbotEngagementMetrics] and of the
    data it owns, followed by the properties of its operations.

    Modelling conventions.
    - A Python [int] is a [Z]; a Python [float] is a rational [Q] (no
      infinities, no NaN), and a reading of the clock stands for a finite
      double.  The two subtractions whose result decides a branch, in
      [record_page_switch] and [record_slow_response], are the binary64
      subtraction: the exact difference rounded to the nearest double,
      ties to even.  The other float operations are exact.  True division
      raises [ZeroDivisionError] on a zero divisor, as in Python.
    - A Python [str] is the list of its code points; [str.split()] cuts it
      at runs of the code points Python regards as whitespace.
    - [time.time()] reads a wall clock.  The clock is an arbitrary sequence
      of readings [nat -> Q]; every call consumes one reading.  Nothing
      forces the readings to be ordered.
    - A method is a computation over a world (the object, the clock, the
      text written so far) that returns a value or raises; what a method
      wrote to the object before raising stays written. *)

From Stdlib Require Import ZArith QArith Qabs Bool List String Ascii Lia Lqa.
From Stdlib Require Import DecimalString Sorted Qround.
From Stdlib Require Import PrimFloat FloatOps SpecFloat.
Import ListNotations.

Local Open Scope Z_scope.

(** ** Strings and [str.split()] *)

Definition codepoint := N.
Definition str := list codepoint.

(** An ASCII literal as a [str]. *)
Definition str_of (s : string) : str :=
  List.map N_of_ascii (list_ascii_of_string s).

(** The code points for which [str.isspace] holds, the separators of
    [str.split()] called without argument. *)
Definition isspace (c : codepoint) : bool :=
  ((9 <=? c) && (c <=? 13) || (28 <=? c) && (c <=? 32)
   || (c =? 133) || (c =? 160) || (c =? 5760)
   || (8192 <=? c) && (c <=? 8202)
   || (c =? 8232) || (c =? 8233) || (c =? 8239) || (c =? 8287)
   || (c =? 12288))%N.

(** [split_from cur s]: the words of [s], where [cur] holds (reversed) the
    characters of the word being read. *)
Fixpoint split_from (cur : str) (s : str) : list str :=
  match s with
  | [] => match cur with [] => [] | _ :: _ => [rev cur] end
  | c :: s' =>
      if isspace c
      then match cur with
           | [] => split_from [] s'
           | _ :: _ => rev cur :: split_from [] s'
           end
      else split_from (c :: cur) s'
  end.

Definition split (s : str) : list str := split_from [] s.

(** ** Data model *)

Inductive MessageLength := SHORT | MEDIUM | LONG.

Module Message.

Record t := mk {
  content : str;
  timestamp : Q;
  is_user : bool;
  length : MessageLength
}.

End Message.

Record ChatbotEngagementMetrics := mkMetrics {
  messages : list Message.t;
  page_switches : Z;
  slow_responses : Z;
  external_clicks : Z;
  ghosting_time : Q;
  last_bot_response_time : option Q
}.

(** [__init__] *)
Definition init : ChatbotEngagementMetrics :=
  mkMetrics [] 0 0 0 0%Q None.

(** [_categorize_length] *)
Definition _categorize_length (content : str) : MessageLength :=
  let word_count := Z.of_nat (List.length (split content)) in
  if word_count <? 5 then SHORT
  else if word_count <? 20 then MEDIUM
  else LONG.

(** The number of words as the positions where a word starts: a character
    that is not whitespace and that follows whitespace or opens the text. *)
Fixpoint word_starts (in_word : bool) (s : str) : nat :=
  match s with
  | [] => 0
  | c :: s' =>
      if isspace c then word_starts false s'
      else ((if in_word then 0 else 1) + word_starts true s')%nat
  end.

(** ** Worlds and computations *)

Record World := mkWorld {
  self : ChatbotEngagementMetrics;   (* the accumulator object *)
  clock : nat -> Q;                  (* the readings of [time.time()] *)
  ticks : nat;                       (* how many readings were consumed *)
  stdout : list string               (* the lines printed so far *)
}.

Inductive exn := ZeroDivisionError | IndexError.

Inductive outcome (A : Type) :=
| Return (a : A)
| Raise (e : exn).
Arguments Return {A} a.
Arguments Raise {A} e.

Definition M (A : Type) : Type := World -> outcome A * World.

Definition ret {A} (a : A) : M A := fun w => (Return a, w).

Definition raise {A} (e : exn) : M A := fun w => (Raise e, w).

Definition bind {A B} (c : M A) (k : A -> M B) : M B :=
  fun w =>
    match c w with
    | (Return a, w') => k a w'
    | (Raise e, w') => (Raise e, w')
    end.

Declare Scope py_scope.
Delimit Scope py_scope with py.
Notation "x <- c ;; k" := (bind c (fun x => k))
  (at level 100, c at next level, right associativity) : py_scope.
Notation "c ;;; k" := (bind c (fun _ => k))
  (at level 100, right associativity) : py_scope.
Local Open Scope py_scope.

Definition get_self : M ChatbotEngagementMetrics :=
  fun w => (Return (self w), w).

Definition put_self (s : ChatbotEngagementMetrics) : M unit :=
  fun w => (Return tt, mkWorld s (clock w) (ticks w) (stdout w)).

(** [time.time()] *)
Definition time_time : M Q :=
  fun w =>
    (Return (clock w (ticks w)),
     mkWorld (self w) (clock w) (S (ticks w)) (stdout w)).

(** [print(line)] *)
Definition print (line : string) : M unit :=
  fun w =>
    (Return tt, mkWorld (self w) (clock w) (ticks w) (stdout w ++ [line])).

(** The reading the next call of [time.time()] returns. *)
Definition now (w : World) : Q := clock w (ticks w).

(** *** Attribute assignment *)

Definition set_messages (v : list Message.t) (s : ChatbotEngagementMetrics) :=
  mkMetrics v (page_switches s) (slow_responses s) (external_clicks s)
            (ghosting_time s) (last_bot_response_time s).

Definition set_page_switches (v : Z) (s : ChatbotEngagementMetrics) :=
  mkMetrics (messages s) v (slow_responses s) (external_clicks s)
            (ghosting_time s) (last_bot_response_time s).

Definition set_slow_responses (v : Z) (s : ChatbotEngagementMetrics) :=
  mkMetrics (messages s) (page_switches s) v (external_clicks s)
            (ghosting_time s) (last_bot_response_time s).

Definition set_external_clicks (v : Z) (s : ChatbotEngagementMetrics) :=
  mkMetrics (messages s) (page_switches s) (slow_responses s) v
            (ghosting_time s) (last_bot_response_time s).

Definition set_ghosting_time (v : Q) (s : ChatbotEngagementMetrics) :=
  mkMetrics (messages s) (page_switches s) (slow_responses s)
            (external_clicks s) v (last_bot_response_time s).

Definition set_last_bot_response_time (v : option Q)
           (s : ChatbotEngagementMetrics) :=
  mkMetrics (messages s) (page_switches s) (slow_responses s)
            (external_clicks s) (ghosting_time s) v.

Definition modify (f : ChatbotEngagementMetrics -> ChatbotEngagementMetrics)
  : M unit :=
  s <- get_self ;; put_self (f s).

(** *** Python primitives *)

Definition Qltb (a b : Q) : bool := negb (Qle_bool b a).

(** [a / b] *)
Definition truediv (a b : Q) : M Q :=
  if Qeq_bool b 0 then raise ZeroDivisionError else ret (a / b)%Q.

(** [l[i]], a negative [i] counting from the end. *)
Definition getitem {A} (l : list A) (i : Z) : M A :=
  let n := Z.of_nat (List.length l) in
  let j := if i <? 0 then n + i else i in
  if (0 <=? j) && (j <? n)
  then match nth_error l (Z.to_nat j) with
       | Some x => ret x
       | None => raise IndexError
       end
  else raise IndexError.

(** [min(a, b)] and [max(a, b)]: the first argument unless the second is
    strictly smaller (larger). *)
Definition py_min (a b : Q) : Q := if Qltb b a then b else a.
Definition py_max (a b : Q) : Q := if Qltb a b then b else a.

Definition sum_Z (l : list Z) : Z := fold_left Z.add l 0.
Definition sum_Q (l : list Q) : Q := fold_left Qplus l 0%Q.

(** The integer nearest to [q], a tie going to the even one. *)
Definition round_half_even (q : Q) : Z :=
  let d := Zpos (Qden q) in
  let f := Qnum q / d in
  let r := Qnum q mod d in
  if 2 * r <? d then f
  else if d <? 2 * r then f + 1
  else if Z.even f then f else f + 1.

(** The largest [k] with [2 ^ k <= q], for a positive [q]. *)
Definition floor_log2 (q : Q) : Z :=
  let k := Z.log2 (Qnum q) - Z.log2 (Zpos (Qden q)) in
  if Qle_bool (2 ^ k)%Q q then k else k - 1.

(** The double nearest to [q], a tie going to the even mantissa: 53 bits
    of mantissa, exponents from -1074 up (gradual underflow).  A double is
    left as it is. *)
Definition round_binary64 (q : Q) : Q :=
  if Qeq_bool q 0 then 0%Q
  else
    let a := Qabs q in
    let e := Z.max (floor_log2 a - 52) (-1074) in
    let m := round_half_even (a / 2 ^ e)%Q in
    let r := (inject_Z m * 2 ^ e)%Q in
    if Qltb q 0 then (- r)%Q else r.

(** [a - b] on two floats: the exact difference of the two doubles,
    rounded to a double. *)
Definition float_sub (a b : Q) : Q :=
  round_binary64 (round_binary64 a - round_binary64 b).

(** The rational a finite machine double is. *)
Definition Q_of_double (f : float) : Q :=
  match Prim2SF f with
  | S754_finite s m e =>
      ((if s then -1 else 1) * inject_Z (Zpos m) * 2 ^ e)%Q
  | _ => 0%Q
  end.

(** Truth value of an [Optional[float]]: [None] and [0.0] are false. *)
Definition truthy (o : option Q) : bool :=
  match o with
  | None => false
  | Some t => negb (Qeq_bool t 0)
  end.

(** ** The methods of [ChatbotEngagementMetrics] *)

Definition add_message (content : str) (is_user : bool) : M unit :=
  let length := _categorize_length content in
  t <- time_time ;;
  modify (fun s =>
    set_messages (messages s ++ [Message.mk content t is_user length]) s) ;;;
  if negb is_user
  then t' <- time_time ;; modify (set_last_bot_response_time (Some t'))
  else ret tt.

Definition record_page_switch : M unit :=
  s <- get_self ;;
  match last_bot_response_time s with
  | Some last =>
      if truthy (Some last)
      then t <- time_time ;;
           if Qltb (float_sub t last) 5
           then modify (fun s => set_page_switches (page_switches s + 1) s)
           else ret tt
      else ret tt
  | None => ret tt
  end.

Definition record_slow_response : M unit :=
  s <- get_self ;;
  if 2 <=? Z.of_nat (List.length (messages s))
  then m1 <- getitem (messages s) (-1) ;;
       m2 <- getitem (messages s) (-2) ;;
       let time_diff :=
         float_sub (Message.timestamp m1) (Message.timestamp m2) in
       if Qltb 30 time_diff
       then modify (fun s => set_slow_responses (slow_responses s + 1) s)
       else ret tt
  else ret tt.

Definition record_external_click : M unit :=
  modify (fun s => set_external_clicks (external_clicks s + 1) s).

Definition update_ghosting_time : M unit :=
  s <- get_self ;;
  match messages s with
  | [] => ret tt
  | _ :: _ =>
      m <- getitem (messages s) (-1) ;;
      if negb (Message.is_user m)
      then t <- time_time ;;
           m' <- getitem (messages s) (-1) ;;
           modify (fun s =>
             set_ghosting_time
               (ghosting_time s + (t - Message.timestamp m'))%Q s)
      else ret tt
  end.

(** The gaps between consecutive messages of different roles. *)
Fixpoint response_times (l : list Message.t) : list Q :=
  match l with
  | m0 :: (m1 :: _) as tl =>
      if xorb (Message.is_user m1) (Message.is_user m0)
      then (Message.timestamp m1 - Message.timestamp m0)%Q :: response_times tl
      else response_times tl
  | _ => []
  end.

Definition _calculate_avg_response_time : M Q :=
  s <- get_self ;;
  let response_times := response_times (messages s) in
  match response_times with
  | [] => ret 0%Q
  | _ :: _ =>
      truediv (sum_Q response_times)
              (inject_Z (Z.of_nat (List.length response_times)))
  end.

Definition get_engagement_score : M Q :=
  s <- get_self ;;
  if Z.of_nat (List.length (messages s)) <? 6 then ret 0%Q
  else
    let total_messages := Z.of_nat (List.length (messages s)) in
    let user_messages :=
      sum_Z (List.map (fun _ => 1) (List.filter Message.is_user (messages s))) in
    avg_response_time <- _calculate_avg_response_time ;;
    r1 <- truediv (inject_Z user_messages) (inject_Z total_messages) ;;
    r2 <- truediv (inject_Z (page_switches s)) (inject_Z total_messages) ;;
    r3 <- truediv (inject_Z (slow_responses s)) (inject_Z user_messages) ;;
    r4 <- truediv (inject_Z (external_clicks s)) (inject_Z total_messages) ;;
    r5 <- truediv (ghosting_time s) 300 ;;
    let engagement_score :=
      (r1 * 0.3 + (1 - r2) * 0.2 + (1 - r3) * 0.2 + (1 - r4) * 0.2
       + (1 - py_min r5 1) * 0.1)%Q in
    ret (py_min (py_max engagement_score 0) 1).

(** *** Formatting *)

(** [str(n)] for an integer. *)
Definition str_int (z : Z) : string := NilZero.string_of_int (Z.to_int z).

Definition two_digits (n : Z) : string :=
  if n <? 10 then ("0" ++ str_int n)%string else str_int n.

(** [f"{q:.2f}"] *)
Definition format_2f (q : Q) : string :=
  let c := Z.abs (round_half_even (q * 100)) in
  ((if Qltb q 0 then "-" else "")
   ++ str_int (c / 100) ++ "." ++ two_digits (c mod 100))%string.

Definition print_metrics : M unit :=
  s <- get_self ;;
  print ("Total messages: "
         ++ str_int (Z.of_nat (List.length (messages s)))) ;;;
  s <- get_self ;;
  print ("Page switches: " ++ str_int (page_switches s)) ;;;
  s <- get_self ;;
  print ("Slow responses: " ++ str_int (slow_responses s)) ;;;
  s <- get_self ;;
  print ("External clicks: " ++ str_int (external_clicks s)) ;;;
  s <- get_self ;;
  print ("Ghosting time: " ++ format_2f (ghosting_time s) ++ " seconds") ;;;
  score <- get_engagement_score ;;
  print ("Engagement score: " ++ format_2f score).

(** ** Sequences of recording calls *)

Inductive call :=
| AddMessage (content : str) (is_user : bool)
| RecordPageSwitch
| RecordSlowResponse
| RecordExternalClick
| UpdateGhostingTime.

Definition perform (c : call) : M unit :=
  match c with
  | AddMessage content is_user => add_message content is_user
  | RecordPageSwitch => record_page_switch
  | RecordSlowResponse => record_slow_response
  | RecordExternalClick => record_external_click
  | UpdateGhostingTime => update_ghosting_time
  end.

Fixpoint perform_all (cs : list call) : M unit :=
  match cs with
  | [] => ret tt
  | c :: cs' => perform c ;;; perform_all cs'
  end.

(** The world right after [ChatbotEngagementMetrics()]. *)
Definition fresh (clk : nat -> Q) : World := mkWorld init clk 0 [].

(** The world a computation leaves. *)
Definition exec {A} (c : M A) (w : World) : World := snd (c w).

(** Worlds built from a fresh accumulator by recording calls. *)
Definition reachable (w : World) : Prop :=
  exists cs, perform_all cs (fresh (clock w)) = (Return tt, w).

(** A clock that never runs backwards. *)
Definition monotone (clk : nat -> Q) : Prop :=
  forall i j, (i <= j)%nat -> (clk i <= clk j)%Q.

(** How many messages of the history are the user's. *)
Definition user_count (s : ChatbotEngagementMetrics) : nat :=
  List.length (List.filter Message.is_user (messages s)).

(** A message with a given time and role, for examples. *)
Definition msg (t : Q) (is_user : bool) : Message.t :=
  Message.mk (str_of "word") t is_user SHORT.

(** A clock that reads 0, 1, 2, ... *)
Definition nat_clock (n : nat) : Q := inject_Z (Z.of_nat n).

(** A clock that reads 0, 0, 1, 2, ...: a conversation that starts at the
    epoch. *)
Definition epoch_clock (n : nat) : Q := inject_Z (Z.of_nat (Nat.pred n)).

(** The world after one bot message stamped at time zero. *)
Definition after_bot_at_zero : World :=
  exec (add_message (str_of "hi") false) (fresh epoch_clock).

(** A clock that reads 0.1, 0.1 and then 5.1. *)
Definition tenth_clock (n : nat) : Q :=
  if (n <? 2)%nat then round_binary64 0.1 else round_binary64 5.1.

(** The world after one bot message recorded at time 0.1, the clock now
    at 5.1. *)
Definition after_bot_at_tenth : World :=
  exec (add_message (str_of "hi") false) (fresh tenth_clock).

(** A clock that reads 0.1 and then 30.1. *)
Definition half_minute_clock (n : nat) : Q :=
  if (n <? 1)%nat then round_binary64 0.1 else round_binary64 30.1.

(** The world after a bot message stamped 0.1 and a user message stamped
    30.1. *)
Definition after_half_minute : World :=
  exec (perform_all [AddMessage (str_of "hi") false;
                     AddMessage (str_of "hello") true])
       (fresh half_minute_clock).

(** A clock that reads 10, 10 and then 5: it was set back after the second
    reading. *)
Definition set_back_clock (n : nat) : Q :=
  if (n <? 2)%nat then 10%Q else 5%Q.

(** The world after one bot message recorded before the clock was set
    back. *)
Definition after_bot_before_set_back : World :=
  exec (add_message (str_of "hi") false) (fresh set_back_clock).

(** Every message carries a reading of the clock that was already
    consumed. *)
Definition stamped (w : World) : Prop :=
  Forall (fun m => exists i, (i < ticks w)%nat /\
                             Message.timestamp m = clock w i)
         (messages (self w)).

(** Six bot messages in a row, no user message. *)
Definition six_bot_messages : list call :=
  List.repeat (AddMessage (str_of "hi") false) 6.

Definition after_six_bot_messages : World :=
  exec (perform_all six_bot_messages) (fresh nat_clock).

(** Three bot and three user messages in turn, the bot first. *)
Definition alternating : list call :=
  [AddMessage (str_of "hi") false; AddMessage (str_of "hello") true;
   AddMessage (str_of "hi") false; AddMessage (str_of "hello") true;
   AddMessage (str_of "hi") false; AddMessage (str_of "hello") true].

(** The world with [out] printed after what was printed before. *)
Definition printed (w : World) (out : list string) : World :=
  mkWorld (self w) (clock w) (ticks w) (stdout w ++ out).

(** [n] calls of [c] in a row: what each returned or raised, and the world
    left at the end. *)
Fixpoint call_n {A} (n : nat) (c : M A) (w : World)
  : list (outcome A) * World :=
  match n with
  | O => ([], w)
  | S n' =>
      let (r, w') := c w in
      let (rs, w'') := call_n n' c w' in
      (r :: rs, w'')
  end.

(** ** Reading a sequence of calls *)

(** The text and role of every [add_message] call of a sequence, in the
    order of the calls. *)
Definition recorded (cs : list call) : list (str * bool) :=
  flat_map (fun c => match c with
                     | AddMessage content is_user => [(content, is_user)]
                     | _ => []
                     end) cs.

Definition is_page_switch (c : call) : bool :=
  match c with RecordPageSwitch => true | _ => false end.

Definition is_slow_response (c : call) : bool :=
  match c with RecordSlowResponse => true | _ => false end.

Definition is_external_click (c : call) : bool :=
  match c with RecordExternalClick => true | _ => false end.

(** How many calls of a sequence are of a given kind. *)
Definition count_calls (f : call -> bool) (cs : list call) : Z :=
  Z.of_nat (List.length (List.filter f cs)).

(** A history in which no message is stamped earlier than one before it. *)
Definition chronological (l : list Message.t) : Prop :=
  StronglySorted
    (fun a b => (Message.timestamp a <= Message.timestamp b)%Q) l.

(** The weighted sum of [get_engagement_score], over the six quantities it
    reads from the object. *)
Definition weighted_sum (total user ps sr ec : Z) (ghost : Q) : Q :=
  ((inject_Z user / inject_Z total) * 0.3
   + (1 - inject_Z ps / inject_Z total) * 0.2
   + (1 - inject_Z sr / inject_Z user) * 0.2
   + (1 - inject_Z ec / inject_Z total) * 0.2
   + (1 - py_min (ghost / 300) 1) * 0.1)%Q.

(** ** Datasets *)

(** A method called on an object other than the current one.  Used for
    the methods that only read their object; what the method does to the
    clock and the output stays. *)
Definition on_object {A} (m : ChatbotEngagementMetrics) (c : M A) : M A :=
  fun w =>
    let (r, w') := c (mkWorld m (clock w) (ticks w) (stdout w)) in
    (r, mkWorld (self w) (clock w') (ticks w') (stdout w')).

(** The loop of [analyze_dataset], with its four accumulators. *)
Fixpoint analyze_loop (dataset : list ChatbotEngagementMetrics)
         (total_score : Q)
         (high_engagement medium_engagement low_engagement : Z)
  : M (Q * (Z * Z * Z)) :=
  match dataset with
  | [] =>
      ret (total_score, (high_engagement, medium_engagement, low_engagement))
  | metrics :: rest =>
      score <- on_object metrics get_engagement_score ;;
      let total_score := (total_score + score)%Q in
      if Qltb 0.7 score
      then analyze_loop rest total_score
                        (high_engagement + 1) medium_engagement low_engagement
      else if Qltb 0.4 score
      then analyze_loop rest total_score
                        high_engagement (medium_engagement + 1) low_engagement
      else analyze_loop rest total_score
                        high_engagement medium_engagement (low_engagement + 1)
  end.

Definition analyze_dataset (dataset : list ChatbotEngagementMetrics)
  : M unit :=
  r <- analyze_loop dataset 0 0 0 0 ;;
  let total_score := fst r in
  let high_engagement := fst (fst (snd r)) in
  let medium_engagement := snd (fst (snd r)) in
  let low_engagement := snd (snd r) in
  avg_score <- truediv total_score
                       (inject_Z (Z.of_nat (List.length dataset))) ;;
  print "Dataset Analysis:" ;;;
  print ("Total conversations: "
         ++ str_int (Z.of_nat (List.length dataset))) ;;;
  print ("Average engagement score: " ++ format_2f avg_score) ;;;
  print ("High engagement conversations: " ++ str_int high_engagement) ;;;
  print ("Medium engagement conversations: "
         ++ str_int medium_engagement) ;;;
  print ("Low engagement conversations: " ++ str_int low_engagement).

(** An accumulator whose score can be computed: fewer than 6 messages, or
    a user message among them. *)
Definition scorable (s : ChatbotEngagementMetrics) : Prop :=
  (List.length (messages s) < 6)%nat \/ (0 < user_count s)%nat.

(** The six lines [analyze_dataset] prints. *)
Definition analysis_lines (n : nat) (avg_score : Q) (high medium low : Z)
  : list string :=
  ["Dataset Analysis:";
   "Total conversations: " ++ str_int (Z.of_nat n);
   "Average engagement score: " ++ format_2f avg_score;
   "High engagement conversations: " ++ str_int high;
   "Medium engagement conversations: " ++ str_int medium;
   "Low engagement conversations: " ++ str_int low]%string.

(** ** The random source *)

(** A process: the world, and the source of randomness as an arbitrary
    sequence of draws, one consumed by every call into [random]. *)
Record Process := mkProcess {
  world : World;
  draws : nat -> N;
  drawn : nat
}.

Definition P (A : Type) : Type := Process -> outcome A * Process.

Definition retP {A} (a : A) : P A := fun p => (Return a, p).

Definition raiseP {A} (e : exn) : P A := fun p => (Raise e, p).

Definition bindP {A B} (c : P A) (k : A -> P B) : P B :=
  fun p =>
    match c p with
    | (Return a, p') => k a p'
    | (Raise e, p') => (Raise e, p')
    end.

(** A computation over the world, run inside a process. *)
Definition lift {A} (c : M A) : P A :=
  fun p =>
    let (r, w') := c (world p) in (r, mkProcess w' (draws p) (drawn p)).

Declare Scope sim_scope.
Delimit Scope sim_scope with sim.
Notation "x <- c ;; k" := (bindP c (fun x => k))
  (at level 100, c at next level, right associativity) : sim_scope.
Notation "c ;;; k" := (bindP c (fun _ => k))
  (at level 100, right associativity) : sim_scope.
Local Open Scope sim_scope.

Definition next_draw : P N :=
  fun p =>
    (Return (draws p (drawn p)),
     mkProcess (world p) (draws p) (S (drawn p))).

(** [random.random()]: a multiple of 2^-53 in [0, 1). *)
Definition random_random : P Q :=
  d <- next_draw ;;
  retP (inject_Z (Z.of_N (d mod 2 ^ 53)) / inject_Z (2 ^ 53))%Q.

(** [random.uniform(a, b)] *)
Definition random_uniform (a b : Q) : P Q :=
  r <- random_random ;; retP (a + (b - a) * r)%Q.

(** [random.randint(a, b)], called with [a <= b] only. *)
Definition random_randint (a b : Z) : P Z :=
  d <- next_draw ;; retP (a + Z.of_N d mod (b - a + 1)).

(** [random.choice(l)] *)
Definition random_choice {A} (l : list A) : P A :=
  match l with
  | [] => raiseP IndexError
  | x :: _ =>
      d <- next_draw ;;
      retP (nth (N.to_nat d mod List.length l) l x)
  end.

(** [time.sleep(secs)]: the pause shows in the readings of the clock,
    which are arbitrary; nothing else changes. *)
Definition time_sleep (secs : Q) : P unit := retP tt.

(** [sep.join(l)] *)
Fixpoint join (sep : str) (l : list str) : str :=
  match l with
  | [] => []
  | x :: tl =>
      match tl with
      | [] => x
      | _ :: _ => x ++ sep ++ join sep tl
      end
  end.

Definition generate_message (is_user : bool) : P (str * MessageLength) :=
  let lengths := [SHORT; MEDIUM; LONG] in
  length <- random_choice lengths ;;
  word_count <- match length with
                | SHORT => random_randint 1 4
                | MEDIUM => random_randint 5 19
                | LONG => random_randint 20 50
                end ;;
  let message :=
    join (str_of " ") (List.repeat (str_of "word") (Z.to_nat word_count)) in
  retP (message, length).

(** ** The conversation simulator *)

(** One pass through the body of the loop of [simulate_conversation]. *)
Definition simulate_turn (is_user_turn : bool) : P unit :=
  generated <- generate_message is_user_turn ;;
  let message := fst generated in
  lift (add_message message is_user_turn) ;;;
  (if is_user_turn
   then
     (r <- random_random ;;
      if Qltb r 0.1 then lift record_slow_response else retP tt) ;;;
     (r <- random_random ;;
      if Qltb r 0.05 then lift record_page_switch else retP tt) ;;;
     (r <- random_random ;;
      if Qltb r 0.03 then lift record_external_click else retP tt)
   else
     r <- random_random ;;
     if Qltb r 0.02
     then secs <- random_uniform 10 60 ;;
          time_sleep secs ;;;
          lift update_ghosting_time
     else retP tt) ;;;
  secs <- random_uniform 1 10 ;;
  time_sleep secs.

(** The loop of [simulate_conversation], for at most [fuel] passes; the
    result tells whether the loop ended. *)
Fixpoint simulate_loop (fuel : nat) (start_time : Q) (duration : Z)
         (is_user_turn : bool) : P bool :=
  match fuel with
  | O => retP false
  | S fuel' =>
      t <- lift time_time ;;
      if Qltb (t - start_time) (inject_Z duration)
      then simulate_turn is_user_turn ;;;
           simulate_loop fuel' start_time duration (negb is_user_turn)
      else retP true
  end.

(** [simulate_conversation(duration)]; the accumulator it builds is the
    object of the world.  [None] when the fuel ran out first. *)
Definition simulate_conversation (fuel : nat) (duration : Z)
  : P (option ChatbotEngagementMetrics) :=
  lift (put_self init) ;;;
  start_time <- lift time_time ;;
  ended <- simulate_loop fuel start_time duration false ;;
  metrics <- lift get_self ;;
  retP (if ended then Some metrics else None).

(** A history in which the bot speaks first and the roles alternate. *)
Definition alternating_roles (l : list Message.t) : Prop :=
  List.map Message.is_user l = List.map Nat.odd (seq 0 (List.length l)).

(** A clock that passes every time. *)
Definition unbounded (clk : nat -> Q) : Prop :=
  forall q, exists k, forall i, (k <= i)%nat -> (q <= clk i)%Q.

(** A world that moved on without a new message and without output. *)
Definition quiet (w w' : World) : Prop :=
  messages (self w') = messages (self w) /\
  clock w' = clock w /\
  stdout w' = stdout w /\
  (ticks w <= ticks w')%nat.

(** A computation that always returns, never touches the sequence of
    draws, prints nothing and leaves the history and the clock as they
    were. *)
Definition quietly {A} (c : P A) : Prop :=
  forall p, exists a w' n',
    c p = (Return a, mkProcess w' (draws p) n') /\
    quiet (world p) w' /\ (drawn p <= n')%nat.

(** ** The dataset generator and the script *)

(** The loop of [generate_dataset]; [None] when a simulation ran out of
    fuel. *)
Fixpoint generate_dataset_loop (fuel n : nat)
         (dataset : list ChatbotEngagementMetrics)
  : P (option (list ChatbotEngagementMetrics)) :=
  match n with
  | O => retP (Some dataset)
  | S n' =>
      r <- simulate_conversation fuel 300 ;;
      match r with
      | Some metrics => generate_dataset_loop fuel n' (dataset ++ [metrics])
      | None => retP None
      end
  end.

Definition generate_dataset (fuel : nat) (num_conversations : Z)
  : P (option (list ChatbotEngagementMetrics)) :=
  generate_dataset_loop fuel (Z.to_nat num_conversations) [].

(** The last loop of the script, [i] counting from the given index. *)
Fixpoint print_details (i : Z) (l : list ChatbotEngagementMetrics)
  : M unit :=
  match l with
  | [] => (ret tt : M unit)
  | metrics :: rest =>
      bind (print (String (ascii_of_nat 10)
                          ("Detailed metrics for conversation "
                           ++ str_int (i + 1) ++ ":")))
           (fun _ =>
              bind (on_object metrics print_metrics)
                   (fun _ => print_details (i + 1) rest))
  end.

(** The statements at the end of the file. *)
Definition script (fuel : nat) : P (option unit) :=
  let num_conversations := 100 in
  r <- generate_dataset fuel num_conversations ;;
  match r with
  | None => retP None
  | Some dataset =>
      lift (analyze_dataset dataset) ;;;
      lift (print_details 0 (firstn 5 dataset)) ;;;
      retP (Some tt)
  end.

(** * Properties *)

(** ** The length classifier *)

Example split_example :
  split (str_of " ab  c ") = [str_of "ab"; str_of "c"].
Proof. reflexivity. Qed.

Lemma split_from_length (s : str) : forall cur,
  List.length (split_from cur s)
  = ((match cur with [] => 0 | _ :: _ => 1 end)
     + word_starts (match cur with [] => false | _ :: _ => true end) s)%nat.
Proof.
  induction s as [|c s IH]; intros cur; simpl.
  - destruct cur; reflexivity.
  - destruct (isspace c).
    + destruct cur; simpl; rewrite IH; reflexivity.
    + rewrite IH. destruct cur; simpl; lia.
Qed.

Lemma split_length (s : str) :
  List.length (split s) = word_starts false s.
Proof. unfold split. rewrite split_from_length. reflexivity. Qed.

(** Every word [split] yields is non-empty and free of whitespace. *)
Lemma split_from_words (s : str) : forall cur,
  forallb (fun c => negb (isspace c)) cur = true ->
  Forall (fun word => word <> [] /\
                      forallb (fun c => negb (isspace c)) word = true)
         (split_from cur s).
Proof.
  assert (Hrev : forall cur : str, cur <> [] ->
            forallb (fun c => negb (isspace c)) cur = true ->
            rev cur <> [] /\
            forallb (fun c => negb (isspace c)) (rev cur) = true).
  { intros cur Hne Hc. split.
    - intros E. apply Hne. rewrite <- (rev_involutive cur), E. reflexivity.
    - rewrite forallb_forall in *. intros x Hx. apply Hc.
      apply in_rev. exact Hx. }
  induction s as [|c s IH]; intros cur Hcur; simpl.
  - destruct cur as [|a cur]; constructor; [|constructor].
    apply Hrev; [discriminate | exact Hcur].
  - destruct (isspace c) eqn:Hc.
    + destruct cur as [|a cur].
      * apply IH. reflexivity.
      * constructor; [apply Hrev; [discriminate | exact Hcur]|].
        apply IH. reflexivity.
    + apply IH. simpl. rewrite Hc. simpl.
      simpl in Hcur. exact Hcur.
Qed.

(** The words, put together again, are the text without its whitespace. *)
Lemma split_from_concat (s : str) : forall cur,
  List.concat (split_from cur s)
  = rev cur ++ List.filter (fun c => negb (isspace c)) s.
Proof.
  induction s as [|c s IH]; intros cur; simpl.
  - destruct cur; simpl; rewrite ?app_nil_r; reflexivity.
  - destruct (isspace c) eqn:Hc; simpl.
    + destruct cur as [|a cur]; simpl; rewrite IH; reflexivity.
    + rewrite IH. simpl. rewrite <- app_assoc. reflexivity.
Qed.

Lemma word_starts_all_space (s : str) : forall b,
  forallb isspace s = true -> word_starts b s = 0%nat.
Proof.
  induction s as [|c s IH]; intros b H; simpl in *; [reflexivity|].
  apply andb_true_iff in H. destruct H as [Hc Hs].
  rewrite Hc. apply IH. exact Hs.
Qed.

(** C4: the classifier counts the whitespace-separated words of any
    string and answers SHORT below 5 words, MEDIUM from 5 to 19 and LONG
    from 20 on; a string of whitespace only, the empty one included, has
    0 words and is SHORT. *)
Theorem categorize_length_thresholds (content : str) :
  let n := List.length (split content) in
  n = word_starts false content /\
  ((n < 5)%nat -> _categorize_length content = SHORT) /\
  ((5 <= n <= 19)%nat -> _categorize_length content = MEDIUM) /\
  ((20 <= n)%nat -> _categorize_length content = LONG) /\
  (forallb isspace content = true ->
   n = 0%nat /\ _categorize_length content = SHORT).
Proof.
  intros n.
  assert (Hshort : (n < 5)%nat -> _categorize_length content = SHORT).
  { intros H. unfold _categorize_length. fold n.
    destruct (Z.ltb_spec (Z.of_nat n) 5); [reflexivity | lia]. }
  split; [apply split_length|].
  split; [exact Hshort|].
  split; [|split].
  - intros [H5 H19]. unfold _categorize_length. fold n.
    destruct (Z.ltb_spec (Z.of_nat n) 5); [lia|].
    destruct (Z.ltb_spec (Z.of_nat n) 20); [reflexivity | lia].
  - intros H20. unfold _categorize_length. fold n.
    destruct (Z.ltb_spec (Z.of_nat n) 5); [lia|].
    destruct (Z.ltb_spec (Z.of_nat n) 20); [lia | reflexivity].
  - intros Hsp.
    assert (Hn : n = 0%nat).
    { unfold n. rewrite split_length. apply word_starts_all_space. exact Hsp. }
    split; [exact Hn|]. apply Hshort. lia.
Qed.

Lemma categorize_length_thresholds_witness :
  _categorize_length (str_of "a b c d") = SHORT /\
  _categorize_length (str_of "a b c d e") = MEDIUM /\
  _categorize_length
    (str_of "1 2 3 4 5 6 7 8 9 10 11 12 13 14 15 16 17 18 19 20") = LONG /\
  _categorize_length (str_of "  ") = SHORT.
Proof.
  split; [|split; [|split]].
  - destruct (categorize_length_thresholds (str_of "a b c d"))
      as (_ & H & _).
    apply H. simpl. lia.
  - destruct (categorize_length_thresholds (str_of "a b c d e"))
      as (_ & _ & H & _).
    apply H. simpl. lia.
  - destruct (categorize_length_thresholds
                (str_of "1 2 3 4 5 6 7 8 9 10 11 12 13 14 15 16 17 18 19 20"))
      as (_ & _ & _ & H & _).
    apply H. simpl. lia.
  - destruct (categorize_length_thresholds (str_of "  "))
      as (_ & _ & _ & _ & H).
    apply H. reflexivity.
Defined.

Example categorize_empty : _categorize_length [] = SHORT.
Proof. reflexivity. Qed.

Example categorize_nineteen :
  _categorize_length
    (str_of "1 2 3 4 5 6 7 8 9 10 11 12 13 14 15 16 17 18 19") = MEDIUM.
Proof. reflexivity. Qed.

(** ** Python primitives *)

(** [round_binary64] and [float_sub] against the doubles of the machine. *)
Example round_binary64_machine :
  (round_binary64 0.1 == Q_of_double 0x1.999999999999ap-4)%Q /\
  (round_binary64 5.1 == Q_of_double 0x1.4666666666666p+2)%Q /\
  (round_binary64 30.1 == Q_of_double 0x1.e19999999999ap+4)%Q /\
  (round_binary64 (1 # 3) == Q_of_double (1 / 3))%Q /\
  (round_binary64 (9007199254740993 # 1) == Q_of_double 0x1p+53)%Q /\
  (round_binary64 (- (2 # 3)) == Q_of_double (- (2 / 3)))%Q.
Proof. vm_compute. repeat split. Qed.

Example float_sub_machine :
  (float_sub 5.1 0.1
   == Q_of_double (0x1.4666666666666p+2 - 0x1.999999999999ap-4))%Q /\
  (float_sub 30.1 0.1
   == Q_of_double (0x1.e19999999999ap+4 - 0x1.999999999999ap-4))%Q /\
  (float_sub 0.3 0.1 == Q_of_double (0x1.3333333333333p-2
                                     - 0x1.999999999999ap-4))%Q /\
  (float_sub 5.1 0.1 == 5)%Q /\ (float_sub 30.1 0.1 == 30)%Q.
Proof. vm_compute. repeat split. Qed.

Lemma Qltb_lt (a b : Q) : Qltb a b = true <-> (a < b)%Q.
Proof.
  unfold Qltb. rewrite negb_true_iff, <- not_true_iff_false, Qle_bool_iff.
  split; [apply Qnot_le_lt | apply Qlt_not_le].
Qed.

Lemma Qltb_ge (a b : Q) : Qltb a b = false <-> (b <= a)%Q.
Proof.
  unfold Qltb. rewrite negb_false_iff. apply Qle_bool_iff.
Qed.

Lemma py_min_le (a : Q) : (py_min a 1 <= 1)%Q.
Proof.
  unfold py_min. destruct (Qltb 1 a) eqn:H.
  - apply Qle_refl.
  - apply Qltb_ge. exact H.
Qed.

Lemma py_max_ge (a : Q) : (0 <= py_max a 0)%Q.
Proof.
  unfold py_max. destruct (Qltb a 0) eqn:H.
  - apply Qle_refl.
  - apply Qltb_ge. exact H.
Qed.

(** The clamp of the score: whatever the weighted sum is. *)
Lemma clamp_range (x : Q) :
  (0 <= py_min (py_max x 0) 1 <= 1)%Q.
Proof.
  split; [|apply py_min_le].
  unfold py_min. destruct (Qltb 1 (py_max x 0)); [lra | apply py_max_ge].
Qed.

Lemma getitem_last {A} (pre : list A) (m : A) (w : World) :
  getitem (pre ++ [m]) (-1) w = (Return m, w).
Proof.
  unfold getitem. rewrite length_app. cbn [List.length].
  replace (-1 <? 0) with true by reflexivity.
  replace ((0 <=? Z.of_nat (List.length pre + 1) + -1)
           && (Z.of_nat (List.length pre + 1) + -1
               <? Z.of_nat (List.length pre + 1))) with true
    by (symmetry; apply andb_true_iff; split;
        [apply Z.leb_le | apply Z.ltb_lt]; lia).
  replace (Z.to_nat (Z.of_nat (List.length pre + 1) + -1))
    with (List.length pre) by lia.
  rewrite nth_error_app2, Nat.sub_diag by lia. reflexivity.
Qed.

Lemma getitem_second_last {A} (pre : list A) (m2 m1 : A) (w : World) :
  getitem (pre ++ [m2; m1]) (-2) w = (Return m2, w).
Proof.
  unfold getitem. rewrite length_app. cbn [List.length].
  replace (-2 <? 0) with true by reflexivity.
  replace ((0 <=? Z.of_nat (List.length pre + 2) + -2)
           && (Z.of_nat (List.length pre + 2) + -2
               <? Z.of_nat (List.length pre + 2))) with true
    by (symmetry; apply andb_true_iff; split;
        [apply Z.leb_le | apply Z.ltb_lt]; lia).
  replace (Z.to_nat (Z.of_nat (List.length pre + 2) + -2))
    with (List.length pre) by lia.
  rewrite nth_error_app2, Nat.sub_diag by lia. reflexivity.
Qed.

Lemma list_snoc {A} (l : list A) :
  l <> [] -> exists pre m, l = pre ++ [m].
Proof.
  intros H. destruct (exists_last H) as (pre & m & E). eauto.
Qed.

Lemma list_nil_or_snoc {A} (l : list A) :
  l = [] \/ exists pre m, l = pre ++ [m].
Proof.
  destruct l as [|a l]; [left; reflexivity|].
  right. apply list_snoc. discriminate.
Qed.

Lemma list_snoc2 {A} (l : list A) :
  (2 <= List.length l)%nat -> exists pre m2 m1, l = pre ++ [m2; m1].
Proof.
  intros H.
  destruct (list_snoc l) as (l1 & m1 & E1).
  { intros E. subst l. simpl in H. lia. }
  subst l. rewrite length_app in H. simpl in H.
  destruct (list_snoc l1) as (pre & m2 & E2).
  { intros E. subst l1. simpl in H. lia. }
  subst l1. exists pre, m2, m1. rewrite <- app_assoc. reflexivity.
Qed.

Lemma sum_Z_ones {A} (l : list A) :
  sum_Z (List.map (fun _ => 1) l) = Z.of_nat (List.length l).
Proof.
  unfold sum_Z.
  assert (H : forall acc,
             fold_left Z.add (List.map (fun _ : A => 1) l) acc
             = acc + Z.of_nat (List.length l)).
  { induction l as [|a l IH]; intros acc; simpl List.length; simpl fold_left.
    - lia.
    - rewrite IH. lia. }
  rewrite H. lia.
Qed.

Lemma world_eta (w : World) :
  mkWorld (self w) (clock w) (ticks w) (stdout w) = w.
Proof. destruct w; reflexivity. Qed.


Lemma getitem_last_of_two {A} (pre : list A) (m2 m1 : A) (w : World) :
  getitem (pre ++ [m2; m1]) (-1) w = (Return m1, w).
Proof.
  replace (pre ++ [m2; m1]) with ((pre ++ [m2]) ++ [m1])
    by (rewrite <- app_assoc; reflexivity).
  apply getitem_last.
Qed.

(** ** [record_page_switch] *)

Lemma truthy_zero (t : Q) : (t == 0)%Q -> truthy (Some t) = false.
Proof.
  intros H. unfold truthy. apply Qeq_bool_iff in H. rewrite H. reflexivity.
Qed.

Lemma truthy_nonzero (t : Q) : ~ (t == 0)%Q -> truthy (Some t) = true.
Proof.
  intros H. unfold truthy. destruct (Qeq_bool t 0) eqn:E; [|reflexivity].
  apply Qeq_bool_iff in E. contradiction.
Qed.

Lemma reachable_exec_one (clk : nat -> Q) (c : str) :
  reachable (exec (add_message c false) (fresh clk)).
Proof. exists [AddMessage c false]. reflexivity. Qed.

(** A falsy [last_bot_response_time], absent or zero: nothing happens and
    the clock is not even read. *)
Lemma record_page_switch_falsy (w : World) :
  truthy (last_bot_response_time (self w)) = false ->
  record_page_switch w = (Return tt, w).
Proof.
  intros H. unfold record_page_switch, bind, get_self.
  destruct (last_bot_response_time (self w)) as [last|]; [|reflexivity].
  rewrite H. reflexivity.
Qed.

(** A truthy [last_bot_response_time]: the clock is read and compared. *)
Lemma record_page_switch_truthy (w : World) (last : Q) :
  last_bot_response_time (self w) = Some last ->
  ~ (last == 0)%Q ->
  record_page_switch w
  = (Return tt,
     mkWorld (if Qltb (float_sub (now w) last) 5
              then set_page_switches (page_switches (self w) + 1) (self w)
              else self w)
             (clock w) (S (ticks w)) (stdout w)).
Proof.
  intros Hl Hnz. unfold record_page_switch, bind, get_self. rewrite Hl.
  rewrite (truthy_nonzero last Hnz). unfold time_time. fold (now w).
  destruct (Qltb (float_sub (now w) last) 5); reflexivity.
Qed.

(** C5, as amended: [record_page_switch] adds exactly 1 to [page_switches]
    when [last_bot_response_time] is set, is not zero, and the current time
    minus it, as the float subtraction computes it, is below 5; it leaves
    [page_switches] as it is when [last_bot_response_time] was never set,
    when it is zero, and when the computed difference is 5 or more. *)
Theorem record_page_switch_effect (w : World) :
  (last_bot_response_time (self w) = None ->
   record_page_switch w = (Return tt, w)) /\
  (forall last, last_bot_response_time (self w) = Some last ->
     ((last == 0)%Q -> record_page_switch w = (Return tt, w)) /\
     (~ (last == 0)%Q -> (float_sub (now w) last < 5)%Q ->
      record_page_switch w
      = (Return tt,
         mkWorld (set_page_switches (page_switches (self w) + 1) (self w))
                 (clock w) (S (ticks w)) (stdout w))) /\
     (~ (last == 0)%Q -> (5 <= float_sub (now w) last)%Q ->
      record_page_switch w
      = (Return tt, mkWorld (self w) (clock w) (S (ticks w)) (stdout w)))).
Proof.
  split.
  - intros H. apply record_page_switch_falsy. rewrite H. reflexivity.
  - intros last Hl. split; [|split].
    + intros Hz. apply record_page_switch_falsy. rewrite Hl.
      apply truthy_zero. exact Hz.
    + intros Hnz Hlt. rewrite (record_page_switch_truthy w last Hl Hnz).
      apply Qltb_lt in Hlt. rewrite Hlt. reflexivity.
    + intros Hnz Hge. rewrite (record_page_switch_truthy w last Hl Hnz).
      apply Qltb_ge in Hge. rewrite Hge. reflexivity.
Qed.

Lemma record_page_switch_effect_witness :
  let w := exec (add_message (str_of "hi") false) (fresh nat_clock) in
  page_switches (self (exec record_page_switch w))
  = page_switches (self w) + 1.
Proof.
  destruct (record_page_switch_effect
              (exec (add_message (str_of "hi") false) (fresh nat_clock)))
    as [_ H].
  destruct (H 1%Q eq_refl) as (_ & Hinc & _).
  cbv zeta. unfold exec at 1. rewrite Hinc.
  - reflexivity.
  - vm_compute. discriminate.
  - vm_compute. reflexivity.
Defined.

(** C5, as stated, fails twice.  A bot message was recorded at time zero,
    the current time minus [last_bot_response_time] is 1, below 5, and yet
    [page_switches] stays 0.  And a bot message was recorded at time 0.1,
    the clock reads 5.1, the difference of the two doubles is below 5, and
    yet [page_switches] stays 0: the float subtraction gives exactly 5. *)
Lemma record_page_switch_counterexample :
  (reachable after_bot_at_zero /\
   List.map Message.is_user (messages (self after_bot_at_zero)) = [false] /\
   last_bot_response_time (self after_bot_at_zero) = Some 0%Q /\
   (now after_bot_at_zero - 0 < 5)%Q /\
   page_switches (self after_bot_at_zero) = 0 /\
   page_switches (self (exec record_page_switch after_bot_at_zero)) = 0) /\
  (reachable after_bot_at_tenth /\
   last_bot_response_time (self after_bot_at_tenth)
   = Some (round_binary64 0.1) /\
   now after_bot_at_tenth = round_binary64 5.1 /\
   (0 < round_binary64 0.1)%Q /\
   (round_binary64 5.1 - round_binary64 0.1 < 5)%Q /\
   (float_sub (round_binary64 5.1) (round_binary64 0.1) == 5)%Q /\
   page_switches (self after_bot_at_tenth) = 0 /\
   page_switches (self (exec record_page_switch after_bot_at_tenth)) = 0).
Proof.
  split.
  - split; [apply reachable_exec_one|]. repeat split; reflexivity.
  - split; [apply reachable_exec_one|].
    split; [reflexivity|]. split; [reflexivity|].
    split; [vm_compute; reflexivity|]. split; [vm_compute; reflexivity|].
    split; [vm_compute; reflexivity|]. split; vm_compute; reflexivity.
Qed.

(** C10: when [last_bot_response_time] is exactly zero, [record_page_switch]
    changes nothing, whatever the current time is, just as when no bot
    message was ever recorded. *)
Theorem record_page_switch_zero_timestamp (w : World) (last : Q) :
  last_bot_response_time (self w) = Some last ->
  (last == 0)%Q ->
  record_page_switch w = (Return tt, w).
Proof.
  intros Hl Hz. apply record_page_switch_falsy. rewrite Hl.
  apply truthy_zero. exact Hz.
Qed.

Lemma record_page_switch_zero_timestamp_witness :
  (now after_bot_at_zero - 0 < 5)%Q /\
  record_page_switch after_bot_at_zero = (Return tt, after_bot_at_zero).
Proof.
  split.
  - reflexivity.
  - apply (record_page_switch_zero_timestamp after_bot_at_zero 0%Q).
    + reflexivity.
    + reflexivity.
Defined.

(** ** What each recording call does to the world *)

Lemma add_message_run (content : str) (is_user : bool) (w : World) :
  add_message content is_user w
  = (Return tt,
     let s1 :=
       set_messages
         (messages (self w)
          ++ [Message.mk content (now w) is_user (_categorize_length content)])
         (self w) in
     if is_user
     then mkWorld s1 (clock w) (S (ticks w)) (stdout w)
     else mkWorld
            (set_last_bot_response_time (Some (clock w (S (ticks w)))) s1)
            (clock w) (S (S (ticks w))) (stdout w)).
Proof. destruct is_user; reflexivity. Qed.

Lemma record_external_click_run (w : World) :
  record_external_click w
  = (Return tt,
     mkWorld (set_external_clicks (external_clicks (self w) + 1) (self w))
             (clock w) (ticks w) (stdout w)).
Proof. reflexivity. Qed.

Lemma record_slow_response_short (w : World) :
  (List.length (messages (self w)) < 2)%nat ->
  record_slow_response w = (Return tt, w).
Proof.
  intros Hlen. unfold record_slow_response, bind, get_self.
  destruct (Z.leb_spec 2 (Z.of_nat (List.length (messages (self w)))));
    [lia | reflexivity].
Qed.

Lemma record_slow_response_two (w : World) (pre : list Message.t)
      (m2 m1 : Message.t) :
  messages (self w) = pre ++ [m2; m1] ->
  record_slow_response w
  = (Return tt,
     if Qltb 30 (float_sub (Message.timestamp m1) (Message.timestamp m2))
     then mkWorld (set_slow_responses (slow_responses (self w) + 1) (self w))
                  (clock w) (ticks w) (stdout w)
     else w).
Proof.
  intros Hm. unfold record_slow_response, bind, get_self. rewrite Hm.
  destruct (Z.leb_spec 2 (Z.of_nat (List.length (pre ++ [m2; m1]))))
    as [_|Hlt].
  - cbv beta. rewrite getitem_last_of_two, getitem_second_last.
    destruct (Qltb 30 (float_sub (Message.timestamp m1)
                                 (Message.timestamp m2)));
      reflexivity.
  - rewrite length_app in Hlt. simpl in Hlt. lia.
Qed.

Lemma update_ghosting_time_empty (w : World) :
  messages (self w) = [] -> update_ghosting_time w = (Return tt, w).
Proof.
  intros H. unfold update_ghosting_time, bind, get_self. rewrite H.
  reflexivity.
Qed.

Lemma update_ghosting_time_snoc (w : World) (pre : list Message.t)
      (m : Message.t) :
  messages (self w) = pre ++ [m] ->
  update_ghosting_time w
  = (Return tt,
     if Message.is_user m then w
     else mkWorld
            (set_ghosting_time
               (ghosting_time (self w) + (now w - Message.timestamp m))%Q
               (self w))
            (clock w) (S (ticks w)) (stdout w)).
Proof.
  intros Hm. unfold update_ghosting_time, bind, get_self.
  destruct (messages (self w)) as [|a l] eqn:E.
  - destruct pre; discriminate.
  - cbv beta iota. rewrite Hm, getitem_last.
    destruct (Message.is_user m); simpl; [reflexivity|].
    unfold time_time. rewrite getitem_last. reflexivity.
Qed.

(** ** [record_slow_response] *)

(** C6, as amended: [record_slow_response] changes nothing when the
    history has fewer than 2 messages; with at least two, it adds exactly
    1 to [slow_responses] when the latest timestamp minus the one before,
    as the float subtraction computes it, exceeds 30, whatever the roles
    of the two messages, and changes nothing when it does not. *)
Theorem record_slow_response_effect (w : World) :
  ((List.length (messages (self w)) < 2)%nat ->
   record_slow_response w = (Return tt, w)) /\
  (forall pre m2 m1, messages (self w) = pre ++ [m2; m1] ->
     ((30 < float_sub (Message.timestamp m1) (Message.timestamp m2))%Q ->
      record_slow_response w
      = (Return tt,
         mkWorld (set_slow_responses (slow_responses (self w) + 1) (self w))
                 (clock w) (ticks w) (stdout w))) /\
     ((float_sub (Message.timestamp m1) (Message.timestamp m2) <= 30)%Q ->
      record_slow_response w = (Return tt, w))).
Proof.
  split; [apply record_slow_response_short|].
  intros pre m2 m1 Hm.
  split; intros Hgap; rewrite (record_slow_response_two w pre m2 m1 Hm).
  - apply Qltb_lt in Hgap. rewrite Hgap. reflexivity.
  - apply Qltb_ge in Hgap. rewrite Hgap. reflexivity.
Qed.

Lemma record_slow_response_effect_witness :
  let w := mkWorld (mkMetrics [msg 0 true; msg 31 true] 0 0 0 0%Q None)
                   nat_clock 2 [] in
  slow_responses (self (exec record_slow_response w)) = 1 /\
  slow_responses
    (self (exec record_slow_response (fresh nat_clock))) = 0.
Proof.
  split.
  - destruct (record_slow_response_effect
                (mkWorld (mkMetrics [msg 0 true; msg 31 true] 0 0 0 0%Q None)
                         nat_clock 2 [])) as [_ H].
    destruct (H [] (msg 0 true) (msg 31 true) eq_refl) as [Hinc _].
    unfold exec. rewrite Hinc; [reflexivity|]. vm_compute. reflexivity.
  - destruct (record_slow_response_effect (fresh nat_clock)) as [H _].
    unfold exec. rewrite H; [reflexivity|]. simpl. lia.
Defined.

(** C6, as stated, fails: a message is stamped 0.1 and the next one 30.1;
    the later timestamp minus the earlier one exceeds 30, and yet
    [slow_responses] stays 0: the float subtraction gives exactly 30. *)
Lemma record_slow_response_counterexample :
  reachable after_half_minute /\
  List.map Message.timestamp (messages (self after_half_minute))
  = [round_binary64 0.1; round_binary64 30.1] /\
  (30 < round_binary64 30.1 - round_binary64 0.1)%Q /\
  (float_sub (round_binary64 30.1) (round_binary64 0.1) == 30)%Q /\
  slow_responses (self after_half_minute) = 0 /\
  slow_responses (self (exec record_slow_response after_half_minute)) = 0.
Proof.
  split.
  { exists [AddMessage (str_of "hi") false; AddMessage (str_of "hello") true].
    vm_compute. reflexivity. }
  split; [reflexivity|].
  split; [vm_compute; reflexivity|]. split; [vm_compute; reflexivity|].
  split; vm_compute; reflexivity.
Qed.

(** One recording call, whichever it is: it returns, and the world it
    leaves differs from the one it found at most as listed here. *)
Lemma perform_cases (c : call) (w : World) :
  exists s' t',
    perform c w = (Return tt, mkWorld s' (clock w) t' (stdout w)) /\
    (ticks w <= t')%nat /\
    page_switches (self w) <= page_switches s' /\
    slow_responses (self w) <= slow_responses s' /\
    external_clicks (self w) <= external_clicks s' /\
    last_bot_response_time s'
    = match c with
      | AddMessage _ false => Some (clock w (S (ticks w)))
      | _ => last_bot_response_time (self w)
      end /\
    messages s'
    = match c with
      | AddMessage content is_user =>
          messages (self w)
          ++ [Message.mk content (now w) is_user (_categorize_length content)]
      | _ => messages (self w)
      end /\
    match c with
    | AddMessage _ _ => (ticks w < t')%nat
    | _ => True
    end /\
    (ghosting_time s' = ghosting_time (self w) \/
     exists pre m, messages (self w) = pre ++ [m] /\
                   ghosting_time s'
                   = (ghosting_time (self w)
                      + (now w - Message.timestamp m))%Q).
Proof.
  destruct c as [content is_user| | | |]; simpl perform.
  - rewrite add_message_run. destruct is_user; cbv zeta;
      eexists _, _; (split; [reflexivity|]); simpl;
      repeat split; try lia; left; reflexivity.
  - destruct (truthy (last_bot_response_time (self w))) eqn:Ht.
    + destruct (last_bot_response_time (self w)) as [last|] eqn:Hl;
        [|discriminate].
      assert (Hnz : ~ (last == 0)%Q).
      { intros Hz. rewrite (truthy_zero last Hz) in Ht. discriminate. }
      rewrite (record_page_switch_truthy w last Hl Hnz).
      eexists _, _; split; [reflexivity|].
      destruct (Qltb (float_sub (now w) last) 5); simpl;
        repeat split; try lia; auto.
    + rewrite (record_page_switch_falsy w Ht).
      exists (self w), (ticks w). rewrite world_eta.
      repeat split; try lia; auto.
  - destruct (le_lt_dec 2 (List.length (messages (self w)))) as [Hge|Hlt].
    + destruct (list_snoc2 _ Hge) as (pre & m2 & m1 & Hm).
      rewrite (record_slow_response_two w pre m2 m1 Hm).
      destruct (Qltb 30 (float_sub (Message.timestamp m1)
                                   (Message.timestamp m2))).
      * eexists _, _; split; [reflexivity|]. simpl.
        repeat split; try lia; auto.
      * exists (self w), (ticks w). rewrite world_eta.
        repeat split; try lia; auto.
    + rewrite (record_slow_response_short w Hlt).
      exists (self w), (ticks w). rewrite world_eta.
      repeat split; try lia; auto.
  - rewrite record_external_click_run.
    eexists _, _; split; [reflexivity|]. simpl.
    repeat split; try lia; auto.
  - destruct (list_nil_or_snoc (messages (self w))) as [E|(pre & m & E)].
    + rewrite (update_ghosting_time_empty w E).
      exists (self w), (ticks w). rewrite world_eta.
      repeat split; try lia; auto.
    + rewrite (update_ghosting_time_snoc w pre m E).
      destruct (Message.is_user m).
      * exists (self w), (ticks w). rewrite world_eta.
        repeat split; try lia; auto.
      * eexists _, _; split; [reflexivity|]. simpl.
        repeat split; try lia; auto.
        right. exists pre, m. split; [exact E | reflexivity].
Qed.

(** ** Timestamps of reachable worlds *)

Lemma perform_stamped (c : call) (w : World) :
  stamped w -> stamped (exec (perform c) w).
Proof.
  intros Hst.
  destruct (perform_cases c w)
    as (s' & t' & Hrun & Ht & _ & _ & _ & _ & Hmsgs & Hlt & _).
  unfold exec. rewrite Hrun. unfold stamped in *. simpl. rewrite Hmsgs.
  assert (Hold : Forall (fun m => exists i, (i < t')%nat /\
                                  Message.timestamp m = clock w i)
                        (messages (self w))).
  { eapply Forall_impl; [|exact Hst].
    intros m (i & Hi & Hm). exists i. split; [lia | exact Hm]. }
  destruct c; try exact Hold.
  apply Forall_app. split; [exact Hold|].
  constructor; [|constructor].
  exists (ticks w). split; [exact Hlt | reflexivity].
Qed.

Lemma perform_clock (c : call) (w : World) :
  fst (perform c w) = Return tt /\ clock (exec (perform c) w) = clock w.
Proof.
  destruct (perform_cases c w) as (s' & t' & Hrun & _).
  unfold exec. rewrite Hrun. split; reflexivity.
Qed.

(** A sequence of recording calls never raises. *)
Lemma perform_all_returns (cs : list call) : forall w,
  perform_all cs w = (Return tt, exec (perform_all cs) w) /\
  clock (exec (perform_all cs) w) = clock w /\
  (stamped w -> stamped (exec (perform_all cs) w)).
Proof.
  induction cs as [|c cs IH]; intros w.
  - repeat split; auto.
  - destruct (perform_clock c w) as [Hret Hclk].
    pose proof (perform_stamped c w) as Hst.
    unfold exec in *. simpl perform_all. unfold bind.
    destruct (perform c w) as [r w1]. simpl in Hret, Hclk, Hst.
    subst r. destruct (IH w1) as (Hrun & Hclk' & Hst').
    repeat split.
    + rewrite Hrun at 1. reflexivity.
    + rewrite Hclk'. exact Hclk.
    + intros H. apply Hst', Hst, H.
Qed.

Lemma reachable_exec (clk : nat -> Q) (cs : list call) :
  reachable (exec (perform_all cs) (fresh clk)).
Proof.
  destruct (perform_all_returns cs (fresh clk)) as (Hrun & Hclk & _).
  exists cs. rewrite Hclk. exact Hrun.
Qed.

Lemma reachable_stamped (w : World) : reachable w -> stamped w.
Proof.
  intros [cs Hcs].
  destruct (perform_all_returns cs (fresh (clock w))) as (_ & _ & Hst).
  unfold exec in Hst. rewrite Hcs in Hst. apply Hst. constructor.
Qed.

(** Over a clock that never runs backwards, no message of a reachable
    world is stamped later than the current time. *)
Lemma reachable_timestamps_past (w : World) :
  monotone (clock w) -> reachable w ->
  Forall (fun m => (Message.timestamp m <= now w)%Q) (messages (self w)).
Proof.
  intros Hmono Hr. eapply Forall_impl; [|apply reachable_stamped, Hr].
  intros m (i & Hi & Hm). rewrite Hm. apply Hmono. lia.
Qed.

Lemma perform_all_cons (c : call) (cs : list call) (w : World) :
  exec (perform_all (c :: cs)) w = exec (perform_all cs) (exec (perform c) w).
Proof.
  destruct (perform_clock c w) as [Hret _].
  unfold exec in *. simpl perform_all. unfold bind.
  destruct (perform c w) as [r w1]. simpl in Hret. subst r. reflexivity.
Qed.

(** What holds of a fresh accumulator and survives every recording call
    holds of every reachable world. *)
Lemma reachable_invariant (P : World -> Prop) :
  (forall clk, P (fresh clk)) ->
  (forall c w, P w -> P (exec (perform c) w)) ->
  forall w, reachable w -> P w.
Proof.
  intros Hfresh Hstep w [cs Hcs].
  assert (Hall : forall cs w0, P w0 -> P (exec (perform_all cs) w0)).
  { clear cs Hcs. induction cs as [|c cs IH]; intros w0 H0.
    - exact H0.
    - rewrite perform_all_cons. apply IH, Hstep, H0. }
  specialize (Hall cs (fresh (clock w)) (Hfresh _)).
  unfold exec in Hall. rewrite Hcs in Hall. exact Hall.
Qed.

(** In a reachable world [last_bot_response_time] is unset exactly when no
    bot message was ever recorded. *)
Lemma reachable_last_bot_response_time (w : World) :
  reachable w ->
  (last_bot_response_time (self w) = None <->
   forallb Message.is_user (messages (self w)) = true).
Proof.
  revert w.
  apply (reachable_invariant
           (fun w => last_bot_response_time (self w) = None <->
                     forallb Message.is_user (messages (self w)) = true)).
  - intros clk. simpl. split; reflexivity.
  - intros c w IH.
    destruct (perform_cases c w)
      as (s' & t' & Hrun & _ & _ & _ & _ & Hl & Hm & _).
    unfold exec. rewrite Hrun. simpl. rewrite Hl, Hm.
    destruct c as [content [|]| | | |]; try exact IH.
    + rewrite forallb_app. simpl. rewrite !andb_true_r. exact IH.
    + rewrite forallb_app. simpl. rewrite andb_false_r.
      split; discriminate.
Qed.

Lemma nat_clock_monotone : monotone nat_clock.
Proof.
  intros i j Hij. unfold nat_clock. rewrite <- Zle_Qle. lia.
Qed.

(** ** [update_ghosting_time] *)




(** ** The counters *)

(** C8, as amended: a fresh accumulator has all counters at zero and no
    [last_bot_response_time]; no recording call lowers [page_switches],
    [slow_responses] or [external_clicks]; [last_bot_response_time] becomes
    the time read by a bot [add_message] and keeps its value under every
    other call; [ghosting_time] is not lowered by a call made when no
    message is stamped later than the current time, hence by no call in a
    conversation over a clock that never runs backwards. *)
Theorem counters_never_decrease :
  (page_switches init = 0 /\ slow_responses init = 0 /\
   external_clicks init = 0 /\ ghosting_time init = 0%Q /\
   last_bot_response_time init = None) /\
  (forall c w,
     fst (perform c w) = Return tt /\
     page_switches (self w) <= page_switches (self (exec (perform c) w)) /\
     slow_responses (self w) <= slow_responses (self (exec (perform c) w)) /\
     external_clicks (self w)
     <= external_clicks (self (exec (perform c) w)) /\
     last_bot_response_time (self (exec (perform c) w))
     = match c with
       | AddMessage _ false => Some (clock w (S (ticks w)))
       | _ => last_bot_response_time (self w)
       end /\
     (Forall (fun m => (Message.timestamp m <= now w)%Q) (messages (self w)) ->
      (ghosting_time (self w)
       <= ghosting_time (self (exec (perform c) w)))%Q)) /\
  (forall clk cs c,
     monotone clk ->
     let w := exec (perform_all cs) (fresh clk) in
     (ghosting_time (self w) <= ghosting_time (self (exec (perform c) w)))%Q).
Proof.
  assert (Hstep : forall c w,
    fst (perform c w) = Return tt /\
    page_switches (self w) <= page_switches (self (exec (perform c) w)) /\
    slow_responses (self w) <= slow_responses (self (exec (perform c) w)) /\
    external_clicks (self w)
    <= external_clicks (self (exec (perform c) w)) /\
    last_bot_response_time (self (exec (perform c) w))
    = match c with
      | AddMessage _ false => Some (clock w (S (ticks w)))
      | _ => last_bot_response_time (self w)
      end /\
    (Forall (fun m => (Message.timestamp m <= now w)%Q) (messages (self w)) ->
     (ghosting_time (self w)
      <= ghosting_time (self (exec (perform c) w)))%Q)).
  { intros c w.
    destruct (perform_cases c w)
      as (s' & t' & Hrun & _ & Hp & Hs & He & Hl & _ & _ & Hg).
    unfold exec. rewrite Hrun. simpl.
    repeat split; try assumption.
    intros Hpast. destruct Hg as [E|(pre & m & Hm & E)]; rewrite E.
    - apply Qle_refl.
    - rewrite Hm in Hpast. apply Forall_app in Hpast.
      destruct Hpast as [_ Hlast].
      inversion Hlast as [|x l Hle _]; subst. lra. }
  split; [repeat split|]. split; [exact Hstep|].
  intros clk cs c Hmono w.
  destruct (perform_all_returns cs (fresh clk)) as (Hrun & Hclk & _).
  fold w in Hrun, Hclk. simpl in Hclk.
  apply Hstep. apply reachable_timestamps_past.
  - rewrite Hclk. exact Hmono.
  - exists cs. rewrite Hclk. exact Hrun.
Qed.

Lemma counters_never_decrease_witness :
  let w := exec (perform_all [AddMessage (str_of "hi") false])
                (fresh nat_clock) in
  (ghosting_time (self w)
   <= ghosting_time (self (exec (perform UpdateGhostingTime) w)))%Q.
Proof.
  destruct counters_never_decrease as (_ & _ & H).
  exact (H nat_clock [AddMessage (str_of "hi") false] UpdateGhostingTime
           nat_clock_monotone).
Defined.

(** C8, as stated, fails: after the clock was set back from 10 to 5,
    [update_ghosting_time] takes [ghosting_time] from 0 down to -5. *)
Lemma ghosting_time_decreases_counterexample :
  reachable after_bot_before_set_back /\
  (ghosting_time (self after_bot_before_set_back) == 0)%Q /\
  (ghosting_time
     (self (exec (perform UpdateGhostingTime) after_bot_before_set_back))
   == -5)%Q /\
  (ghosting_time
     (self (exec (perform UpdateGhostingTime) after_bot_before_set_back))
   < ghosting_time (self after_bot_before_set_back))%Q.
Proof.
  split.
  - exists [AddMessage (str_of "hi") false]. reflexivity.
  - repeat split; reflexivity.
Qed.

(** ** [get_engagement_score] *)

Lemma inject_nat_nonzero (n : nat) :
  (0 < n)%nat -> Qeq_bool (inject_Z (Z.of_nat n)) 0 = false.
Proof.
  intros H. destruct (Qeq_bool (inject_Z (Z.of_nat n)) 0) eqn:E;
    [|reflexivity].
  apply Qeq_bool_iff in E. unfold Qeq in E. simpl in E. lia.
Qed.

Lemma inject_nat_zero (n : nat) :
  n = 0%nat -> Qeq_bool (inject_Z (Z.of_nat n)) 0 = true.
Proof. intros ->. reflexivity. Qed.

(** The guarded division of [_calculate_avg_response_time] never raises,
    reads nothing but the object and changes nothing. *)
Lemma calculate_avg_response_time_run (s : ChatbotEngagementMetrics) :
  exists v, forall w, self w = s ->
    _calculate_avg_response_time w = (Return v, w).
Proof.
  unfold _calculate_avg_response_time, bind, get_self.
  destruct (response_times (messages s)) as [|q l] eqn:E.
  - exists 0%Q. intros w Hs. rewrite Hs, E. reflexivity.
  - eexists. intros w Hs. rewrite Hs, E. unfold truediv.
    rewrite inject_nat_nonzero by (simpl; lia). reflexivity.
Qed.

(** With 6 messages or more, the score is the clamp of some weighted sum,
    unless the history has no user message: then the division by
    [user_messages] raises.  Either way the world is untouched. *)
Lemma get_engagement_score_run (s : ChatbotEngagementMetrics) :
  (6 <= List.length (messages s))%nat ->
  exists x, forall w, self w = s ->
    get_engagement_score w
    = (if Qeq_bool (inject_Z (Z.of_nat (user_count s))) 0
       then Raise ZeroDivisionError
       else Return (py_min (py_max x 0) 1), w).
Proof.
  intros Hlen.
  destruct (calculate_avg_response_time_run s) as [v Hv].
  eexists. intros w Hs.
  unfold get_engagement_score, bind, get_self. rewrite Hs.
  destruct (Z.ltb_spec (Z.of_nat (List.length (messages s))) 6); [lia|].
  rewrite (Hv w Hs). rewrite sum_Z_ones. fold (user_count s).
  unfold truediv. rewrite inject_nat_nonzero by lia.
  unfold ret, raise.
  destruct (Qeq_bool (inject_Z (Z.of_nat (user_count s))) 0);
    [reflexivity|].
  replace (Qeq_bool 300 0) with false by reflexivity.
  reflexivity.
Qed.

Lemma get_engagement_score_short (w : World) :
  (List.length (messages (self w)) < 6)%nat ->
  get_engagement_score w = (Return 0%Q, w).
Proof.
  intros Hlen. unfold get_engagement_score, bind, get_self.
  destruct (Z.ltb_spec (Z.of_nat (List.length (messages (self w)))) 6);
    [reflexivity | lia].
Qed.

(** The score reads nothing but the object and changes nothing. *)
Lemma get_engagement_score_reads_only (s : ChatbotEngagementMetrics) :
  exists r, forall w, self w = s -> get_engagement_score w = (r, w).
Proof.
  destruct (le_lt_dec 6 (List.length (messages s))) as [Hge|Hlt].
  - destruct (get_engagement_score_run s Hge) as [x Hx].
    eexists. intros w Hs. apply Hx, Hs.
  - exists (Return 0%Q). intros w Hs. apply get_engagement_score_short.
    rewrite Hs. exact Hlt.
Qed.

(** Whenever a score is returned, it lies between 0 and 1. *)
Lemma get_engagement_score_range (w : World) (v : Q) :
  fst (get_engagement_score w) = Return v -> (0 <= v <= 1)%Q.
Proof.
  destruct (le_lt_dec 6 (List.length (messages (self w)))) as [Hge|Hlt].
  - destruct (get_engagement_score_run (self w) Hge) as [x Hx].
    rewrite (Hx w eq_refl).
    destruct (Qeq_bool (inject_Z (Z.of_nat (user_count (self w)))) 0);
      simpl; intros H; [discriminate|].
    injection H as <-. apply clamp_range.
  - rewrite (get_engagement_score_short w Hlt). simpl.
    intros H. injection H as <-. lra.
Qed.

(** A score is returned as soon as the history has a user message, or
    fewer than 6 messages. *)
Lemma get_engagement_score_returns (w : World) :
  (List.length (messages (self w)) < 6)%nat \/ (0 < user_count (self w))%nat ->
  exists v, get_engagement_score w = (Return v, w) /\ (0 <= v <= 1)%Q.
Proof.
  intros H.
  assert (Hret : exists v, get_engagement_score w = (Return v, w)).
  { destruct (le_lt_dec 6 (List.length (messages (self w)))) as [Hge|Hlt].
    - destruct H as [H|H]; [lia|].
      destruct (get_engagement_score_run (self w) Hge) as [x Hx].
      rewrite (Hx w eq_refl), (inject_nat_nonzero _ H). eauto.
    - rewrite (get_engagement_score_short w Hlt). eauto. }
  destruct Hret as [v Hv]. exists v. split; [exact Hv|].
  apply (get_engagement_score_range w). rewrite Hv. reflexivity.
Qed.

(** Without a user message and with 6 messages or more, the division by
    [user_messages] raises. *)
Lemma score_raises_without_user_messages_general (w : World) :
  (6 <= List.length (messages (self w)))%nat ->
  user_count (self w) = 0%nat ->
  get_engagement_score w = (Raise ZeroDivisionError, w).
Proof.
  intros Hlen Hu.
  destruct (get_engagement_score_run (self w) Hlen) as [x Hx].
  rewrite (Hx w eq_refl), (inject_nat_zero _ Hu). reflexivity.
Qed.

(** C3: with fewer than 6 messages in the history the score is exactly 0,
    whatever the counters hold, and nothing is changed. *)
Theorem score_zero_below_six_messages (w : World) :
  (List.length (messages (self w)) < 6)%nat ->
  get_engagement_score w = (Return 0%Q, w).
Proof. apply get_engagement_score_short. Qed.

Lemma score_zero_below_six_messages_witness :
  let w := mkWorld (mkMetrics [msg 0 true; msg 1 false; msg 2 true;
                               msg 3 false; msg 4 true]
                              7 (-3) 100 (5000 # 1) (Some 3%Q))
                   nat_clock 9 [] in
  get_engagement_score w = (Return 0%Q, w).
Proof.
  cbv zeta. apply score_zero_below_six_messages. simpl. lia.
Defined.

(** C1: the code does the opposite of the claim.  With 6 messages or
    more and no user message, [get_engagement_score] raises
    [ZeroDivisionError]: no score is returned. *)
Theorem score_raises_without_user_messages (w : World) :
  (6 <= List.length (messages (self w)))%nat ->
  user_count (self w) = 0%nat ->
  get_engagement_score w = (Raise ZeroDivisionError, w).
Proof.
  intros Hlen Hu.
  destruct (get_engagement_score_run (self w) Hlen) as [x Hx].
  rewrite (Hx w eq_refl), (inject_nat_zero _ Hu). reflexivity.
Qed.

Lemma score_raises_without_user_messages_witness :
  get_engagement_score after_six_bot_messages
  = (Raise ZeroDivisionError, after_six_bot_messages).
Proof.
  apply score_raises_without_user_messages.
  - vm_compute. lia.
  - reflexivity.
Defined.

(** C2: a world reached by recording calls alone, six bot messages, in
    which [get_engagement_score] returns no value at all. *)
Theorem score_not_returned_after_six_bot_messages :
  reachable after_six_bot_messages /\
  fst (get_engagement_score after_six_bot_messages) = Raise ZeroDivisionError.
Proof.
  split.
  - apply reachable_exec.
  - vm_compute. reflexivity.
Qed.

(** Three bot and three user messages in turn, nothing else: 0.85. *)
Example score_alternating :
  exists v,
    fst (get_engagement_score (exec (perform_all alternating)
                                    (fresh nat_clock))) = Return v /\
    (v == 0.85)%Q.
Proof. eexists. split; [vm_compute; reflexivity | reflexivity]. Qed.

(** ** Reading twice *)

Lemma printed_nil (w : World) : printed w [] = w.
Proof. unfold printed. rewrite app_nil_r. apply world_eta. Qed.

Lemma printed_app (w : World) (o1 o2 : list string) :
  printed (printed w o1) o2 = printed w (o1 ++ o2).
Proof. unfold printed. simpl. rewrite app_assoc. reflexivity. Qed.

(** The report depends on the object alone: it raises or returns the same
    and appends the same lines, whatever the clock and the earlier output,
    and it leaves the object as it was. *)
Lemma print_metrics_run (s : ChatbotEngagementMetrics) :
  exists r out, forall w, self w = s ->
    print_metrics w = (r, printed w out).
Proof.
  destruct (get_engagement_score_reads_only s) as [r Hr].
  destruct r as [v|e].
  - exists (Return tt). eexists. intros w Hs.
    unfold print_metrics, bind, get_self, print.
    cbn [self clock ticks stdout]. rewrite Hr by exact Hs.
    unfold printed. cbn [self clock ticks stdout].
    rewrite Hs, <- !app_assoc. reflexivity.
  - exists (Raise e). eexists. intros w Hs.
    unfold print_metrics, bind, get_self, print.
    cbn [self clock ticks stdout]. rewrite Hr by exact Hs.
    unfold printed. cbn [self clock ticks stdout].
    rewrite Hs, <- !app_assoc. reflexivity.
Qed.

Lemma call_n_reads_only {A} (c : M A) (r : outcome A) (w : World) (n : nat) :
  c w = (r, w) -> call_n n c w = (List.repeat r n, w).
Proof.
  intros H. induction n as [|n IH]; simpl; [reflexivity|].
  rewrite H, IH. reflexivity.
Qed.

Lemma call_n_prints {A} (c : M A) (r : outcome A) (out : list string)
      (n : nat) : forall w,
  (forall w', self w' = self w -> c w' = (r, printed w' out)) ->
  call_n n c w
  = (List.repeat r n, printed w (List.concat (List.repeat out n))).
Proof.
  induction n as [|n IH]; intros w H; simpl.
  - rewrite printed_nil. reflexivity.
  - rewrite (H w eq_refl). rewrite IH.
    + rewrite printed_app. reflexivity.
    + intros w' Hw'. apply H. exact Hw'.
Qed.

(** C9: any number of calls of [get_engagement_score] in a row give the
    same result each time and leave the world as it was; any number of
    calls of [print_metrics] in a row end the same way and print the same
    lines each time, and leave the accumulator as it was. *)
Theorem reads_are_idempotent (w : World) (n : nat) :
  (exists r, call_n n get_engagement_score w = (List.repeat r n, w)) /\
  (exists r out,
     call_n n print_metrics w
     = (List.repeat r n, printed w (List.concat (List.repeat out n))) /\
     self (snd (call_n n print_metrics w)) = self w).
Proof.
  split.
  - destruct (get_engagement_score_reads_only (self w)) as [r Hr].
    exists r. apply call_n_reads_only. apply Hr. reflexivity.
  - destruct (print_metrics_run (self w)) as (r & out & Hp).
    exists r, out.
    assert (E : call_n n print_metrics w
                = (List.repeat r n,
                   printed w (List.concat (List.repeat out n)))).
    { apply call_n_prints. intros w' Hw'. apply Hp. exact Hw'. }
    split; [exact E|]. rewrite E. reflexivity.
Qed.

Example print_metrics_alternating :
  stdout (exec print_metrics
               (exec (perform_all alternating) (fresh nat_clock)))
  = ["Total messages: 6"; "Page switches: 0"; "Slow responses: 0";
     "External clicks: 0"; "Ghosting time: 0.00 seconds";
     "Engagement score: 0.85"]%string.
Proof. vm_compute. reflexivity. Qed.

(** Without a user message the report stops before its last line. *)
Example print_metrics_six_bot_messages :
  fst (print_metrics after_six_bot_messages) = Raise ZeroDivisionError /\
  stdout (exec print_metrics after_six_bot_messages)
  = ["Total messages: 6"; "Page switches: 0"; "Slow responses: 0";
     "External clicks: 0"; "Ghosting time: 0.00 seconds"]%string.
Proof. vm_compute. split; reflexivity. Qed.

(** * Further properties of the accumulator *)

(** ** The history and the counters along a sequence of calls *)

Lemma perform_all_app (cs1 cs2 : list call) (w : World) :
  exec (perform_all (cs1 ++ cs2)) w
  = exec (perform_all cs2) (exec (perform_all cs1) w).
Proof.
  revert w. induction cs1 as [|c cs1 IH]; intros w.
  - reflexivity.
  - rewrite <- app_comm_cons, !perform_all_cons. apply IH.
Qed.

(** What one call adds to each integer counter: at most 1, and only to
    the counter the call is about. *)
Lemma perform_counters (c : call) (w : World) :
  (page_switches (self w) <= page_switches (self (exec (perform c) w))
   <= page_switches (self w) + (if is_page_switch c then 1 else 0)) /\
  (slow_responses (self w) <= slow_responses (self (exec (perform c) w))
   <= slow_responses (self w) + (if is_slow_response c then 1 else 0)) /\
  external_clicks (self (exec (perform c) w))
  = external_clicks (self w) + (if is_external_click c then 1 else 0).
Proof.
  unfold exec.
  destruct c as [content is_user| | | |]; simpl perform.
  - rewrite add_message_run. destruct is_user; simpl; lia.
  - destruct (truthy (last_bot_response_time (self w))) eqn:Ht.
    + destruct (last_bot_response_time (self w)) as [last|] eqn:Hl;
        [|discriminate].
      assert (Hnz : ~ (last == 0)%Q).
      { intros Hz. rewrite (truthy_zero last Hz) in Ht. discriminate. }
      rewrite (record_page_switch_truthy w last Hl Hnz).
      destruct (Qltb (float_sub (now w) last) 5); simpl; lia.
    + rewrite (record_page_switch_falsy w Ht). simpl. lia.
  - destruct (le_lt_dec 2 (List.length (messages (self w)))) as [Hge|Hlt].
    + destruct (list_snoc2 _ Hge) as (pre & m2 & m1 & Hm).
      rewrite (record_slow_response_two w pre m2 m1 Hm).
      destruct (Qltb 30 (float_sub (Message.timestamp m1)
                                   (Message.timestamp m2)));
        simpl; lia.
    + rewrite (record_slow_response_short w Hlt). simpl. lia.
  - rewrite record_external_click_run. simpl. lia.
  - destruct (list_nil_or_snoc (messages (self w))) as [E|(pre & m & E)].
    + rewrite (update_ghosting_time_empty w E). simpl. lia.
    + rewrite (update_ghosting_time_snoc w pre m E).
      destruct (Message.is_user m); simpl; lia.
Qed.

Lemma count_calls_cons (f : call -> bool) (c : call) (cs : list call) :
  count_calls f (c :: cs) = (if f c then 1 else 0) + count_calls f cs.
Proof.
  unfold count_calls. simpl. destruct (f c); simpl List.length; lia.
Qed.

(** X2: along any sequence of recording calls, [external_clicks] grows by
    exactly the number of [record_external_click] calls, [page_switches]
    and [slow_responses] grow by at most the number of calls of their
    kind, and the history grows by exactly one message per [add_message]
    call. *)
Theorem counters_count_calls (cs : list call) (w : World) :
  let s := self w in
  let s' := self (exec (perform_all cs) w) in
  (page_switches s <= page_switches s'
   <= page_switches s + count_calls is_page_switch cs) /\
  (slow_responses s <= slow_responses s'
   <= slow_responses s + count_calls is_slow_response cs) /\
  external_clicks s' = external_clicks s + count_calls is_external_click cs /\
  List.length (messages s')
  = (List.length (messages s) + List.length (recorded cs))%nat.
Proof.
  revert w. induction cs as [|c cs IH]; intros w; cbv zeta.
  - unfold count_calls, exec. simpl. repeat split; lia.
  - rewrite perform_all_cons, !count_calls_cons.
    specialize (IH (exec (perform c) w)). cbv zeta in IH.
    destruct IH as (Hp & Hs & He & Hm).
    destruct (perform_counters c w) as (Hp1 & Hs1 & He1).
    destruct (perform_cases c w)
      as (s1 & t1 & Hrun & _ & _ & _ & _ & _ & Hm1 & _).
    assert (Hlen : List.length (messages (self (exec (perform c) w)))
                   = (List.length (messages (self w))
                      + List.length (recorded [c]))%nat).
    { unfold exec. rewrite Hrun. simpl self. rewrite Hm1.
      destruct c; simpl; rewrite ?length_app; simpl; lia. }
    repeat split; try lia.
    rewrite Hm, Hlen. change (c :: cs) with ([c] ++ cs).
    unfold recorded. rewrite flat_map_app, length_app. lia.
Qed.

(** X1: the history is append-only.  Whatever the calls, the messages
    present before are still there, in place, and what follows them is
    exactly the [add_message] calls, in order, each with its text and
    role and with the length category of its text. *)
Theorem history_append_only (cs : list call) (w : World) :
  exists added,
    messages (self (exec (perform_all cs) w)) = messages (self w) ++ added /\
    List.map (fun m => (Message.content m, Message.is_user m)) added
    = recorded cs /\
    Forall (fun m => Message.length m = _categorize_length (Message.content m))
           added.
Proof.
  revert w. induction cs as [|c cs IH]; intros w.
  - exists []. unfold exec. simpl. rewrite app_nil_r. repeat split.
    constructor.
  - rewrite perform_all_cons.
    destruct (IH (exec (perform c) w)) as (added & Hm & Hrec & Hlab).
    destruct (perform_cases c w)
      as (s1 & t1 & Hrun & _ & _ & _ & _ & _ & Hm1 & _).
    assert (E : messages (self (exec (perform c) w)) = messages s1).
    { unfold exec. rewrite Hrun. reflexivity. }
    rewrite E, Hm1 in Hm.
    destruct c as [content is_user| | | |];
      try (exists added; repeat split; assumption).
    exists (Message.mk content (now w) is_user (_categorize_length content)
            :: added).
    split; [|split].
    + rewrite Hm, <- app_assoc. reflexivity.
    + simpl. rewrite Hrec. reflexivity.
    + constructor; [reflexivity | exact Hlab].
Qed.

(** ** Chronological order *)

Lemma StronglySorted_snoc {A} (R : A -> A -> Prop) (l : list A) (x : A) :
  StronglySorted R l -> Forall (fun a => R a x) l ->
  StronglySorted R (l ++ [x]).
Proof.
  induction l as [|a l IH]; intros Hs Hf; simpl.
  - constructor; constructor.
  - inversion Hs as [|a' l' Hsl Hal]; subst.
    inversion Hf as [|a' l' Hax Hlx]; subst.
    constructor; [apply IH; assumption|].
    apply Forall_app. split; [exact Hal|]. constructor; [exact Hax|].
    constructor.
Qed.

Lemma stamped_past (w : World) :
  monotone (clock w) -> stamped w ->
  Forall (fun m => (Message.timestamp m <= now w)%Q) (messages (self w)).
Proof.
  intros Hmono Hst. eapply Forall_impl; [|exact Hst].
  intros m (i & Hi & Hm). rewrite Hm. apply Hmono. lia.
Qed.

(** X3: over a clock that never runs backwards, the history of every
    reachable world is in chronological order: no message is stamped
    earlier than a message recorded before it. *)
Theorem history_chronological (w : World) :
  monotone (clock w) -> reachable w -> chronological (messages (self w)).
Proof.
  intros Hmono Hr.
  assert (H : stamped w /\
              (monotone (clock w) -> chronological (messages (self w)))).
  { clear Hmono. revert w Hr.
    apply (reachable_invariant
             (fun w => stamped w /\
                       (monotone (clock w) ->
                        chronological (messages (self w))))).
    - intros clk. split; [constructor|]. intros _. constructor.
    - intros c w [Hst Hch]. split; [apply perform_stamped, Hst|].
      destruct (perform_clock c w) as [_ Hclk]. rewrite Hclk.
      intros Hmono. specialize (Hch Hmono).
      destruct (perform_cases c w)
        as (s1 & t1 & Hrun & _ & _ & _ & _ & _ & Hm1 & _).
      unfold exec. rewrite Hrun. simpl self. rewrite Hm1.
      destruct c; try exact Hch.
      apply StronglySorted_snoc; [exact Hch|].
      apply (stamped_past w Hmono Hst). }
  apply H, Hmono.
Qed.

Lemma history_chronological_witness :
  chronological
    (messages (self (exec (perform_all alternating) (fresh nat_clock)))).
Proof.
  apply history_chronological.
  - destruct (perform_all_returns alternating (fresh nat_clock))
      as (_ & Hclk & _).
    rewrite Hclk. apply nat_clock_monotone.
  - apply reachable_exec.
Defined.

(** ** [_calculate_avg_response_time] *)

Lemma response_times_cons (m0 m1 : Message.t) (l : list Message.t) :
  response_times (m0 :: m1 :: l)
  = if xorb (Message.is_user m1) (Message.is_user m0)
    then (Message.timestamp m1 - Message.timestamp m0)%Q
         :: response_times (m1 :: l)
    else response_times (m1 :: l).
Proof. reflexivity. Qed.

Lemma response_times_same_role (b : bool) (l : list Message.t) :
  Forall (fun m => Message.is_user m = b) l -> response_times l = [].
Proof.
  induction l as [|m0 l IH]; intros H; [reflexivity|].
  pose proof (Forall_inv H) as H0.
  pose proof (Forall_inv_tail H) as Hl.
  destruct l as [|m1 l]; [reflexivity|].
  pose proof (Forall_inv Hl) as H1.
  rewrite response_times_cons, H0, H1, xorb_nilpotent.
  apply IH. exact Hl.
Qed.

Lemma response_times_chronological (l : list Message.t) :
  chronological l -> Forall (fun d => (0 <= d)%Q) (response_times l).
Proof.
  induction l as [|m0 l IH]; intros H; [constructor|].
  apply StronglySorted_inv in H. destruct H as [Hl Hall].
  destruct l as [|m1 l]; [constructor|].
  specialize (IH Hl). rewrite response_times_cons.
  destruct (xorb (Message.is_user m1) (Message.is_user m0)); [|exact IH].
  constructor; [|exact IH].
  pose proof (Forall_inv Hall) as H01. simpl in H01. lra.
Qed.

Lemma sum_Q_nonneg (l : list Q) :
  Forall (fun d => (0 <= d)%Q) l -> (0 <= sum_Q l)%Q.
Proof.
  unfold sum_Q.
  assert (H : forall acc, (0 <= acc)%Q ->
                Forall (fun d => (0 <= d)%Q) l ->
                (0 <= fold_left Qplus l acc)%Q).
  { induction l as [|d l IH]; intros acc Hacc Hl; simpl; [exact Hacc|].
    inversion Hl as [|x l' Hd Hl']; subst. apply IH; [lra | exact Hl']. }
  apply H. lra.
Qed.

(** X4: [_calculate_avg_response_time] never raises and changes nothing:
    its division is guarded.  It returns 0 when the history has fewer
    than two messages or only messages of one role, and a non-negative
    value when the history is in chronological order. *)
Theorem calculate_avg_response_time_total (w : World) :
  exists v,
    _calculate_avg_response_time w = (Return v, w) /\
    ((List.length (messages (self w)) < 2)%nat -> v = 0%Q) /\
    (forall b, Forall (fun m => Message.is_user m = b) (messages (self w)) ->
               v = 0%Q) /\
    (chronological (messages (self w)) -> (0 <= v)%Q).
Proof.
  unfold _calculate_avg_response_time, bind, get_self.
  pose proof (response_times_same_role) as Hsame.
  pose proof (response_times_chronological (messages (self w))) as Hch.
  assert (Hshort : (List.length (messages (self w)) < 2)%nat ->
                   response_times (messages (self w)) = []).
  { destruct (messages (self w)) as [|m0 [|m1 l]]; simpl; intros H;
      try reflexivity. lia. }
  destruct (response_times (messages (self w))) as [|d l] eqn:E.
  - exists 0%Q. repeat split. intros _. lra.
  - eexists. unfold truediv.
    rewrite inject_nat_nonzero by (simpl; lia).
    split; [reflexivity|]. split; [|split].
    + intros H. apply Hshort in H. discriminate.
    + intros b H. apply (Hsame b) in H. rewrite E in H. discriminate.
    + intros H. apply Hch in H. apply sum_Q_nonneg in H.
      apply Qle_shift_div_l.
      * unfold Qlt. simpl. lia.
      * lra.
Qed.

(** ** What the score depends on *)

(** With 6 messages or more, one of them the user's, the score is the
    clamped weighted sum of six quantities. *)
Lemma get_engagement_score_formula (w : World) :
  (6 <= List.length (messages (self w)))%nat ->
  (0 < user_count (self w))%nat ->
  get_engagement_score w
  = (Return
       (py_min
          (py_max
             (weighted_sum (Z.of_nat (List.length (messages (self w))))
                           (Z.of_nat (user_count (self w)))
                           (page_switches (self w))
                           (slow_responses (self w))
                           (external_clicks (self w))
                           (ghosting_time (self w))) 0) 1), w).
Proof.
  intros Hlen Hu.
  destruct (calculate_avg_response_time_run (self w)) as [v Hv].
  unfold get_engagement_score, bind, get_self.
  destruct (Z.ltb_spec (Z.of_nat (List.length (messages (self w)))) 6);
    [lia|].
  rewrite (Hv w eq_refl). rewrite sum_Z_ones. fold (user_count (self w)).
  unfold truediv. rewrite !inject_nat_nonzero by lia.
  replace (Qeq_bool 300 0) with false by reflexivity.
  reflexivity.
Qed.

Lemma py_min_mono (a b c : Q) :
  (a <= b)%Q -> (py_min a c <= py_min b c)%Q.
Proof.
  intros H. unfold py_min.
  destruct (Qltb c a) eqn:Ea, (Qltb c b) eqn:Eb;
    rewrite ?Qltb_lt, ?Qltb_ge in *; lra.
Qed.

Lemma py_max_mono (a b c : Q) :
  (a <= b)%Q -> (py_max a c <= py_max b c)%Q.
Proof.
  intros H. unfold py_max.
  destruct (Qltb a c) eqn:Ea, (Qltb b c) eqn:Eb;
    rewrite ?Qltb_lt, ?Qltb_ge in *; lra.
Qed.

Lemma div_mono (a b : Z) (d : Q) :
  (0 < d)%Q -> a <= b -> (inject_Z a / d <= inject_Z b / d)%Q.
Proof.
  intros Hd Hab. unfold Qdiv. apply Qmult_le_compat_r.
  - rewrite <- Zle_Qle. exact Hab.
  - apply Qlt_le_weak, Qinv_lt_0_compat, Hd.
Qed.

Lemma inject_nat_pos (n : nat) : (0 < n)%nat -> (0 < inject_Z (Z.of_nat n))%Q.
Proof. intros H. unfold Qlt. simpl. lia. Qed.

(** The weighted sum only falls when a penalty grows. *)
Lemma weighted_sum_antitone (total user : nat) (ps ps' sr sr' ec ec' : Z)
      (g g' : Q) :
  (0 < total)%nat -> (0 < user)%nat ->
  ps <= ps' -> sr <= sr' -> ec <= ec' -> (g <= g')%Q ->
  (weighted_sum (Z.of_nat total) (Z.of_nat user) ps' sr' ec' g'
   <= weighted_sum (Z.of_nat total) (Z.of_nat user) ps sr ec g)%Q.
Proof.
  intros Ht Hu Hps Hsr Hec Hg. unfold weighted_sum.
  pose proof (div_mono ps ps' _ (inject_nat_pos total Ht) Hps) as H1.
  pose proof (div_mono sr sr' _ (inject_nat_pos user Hu) Hsr) as H2.
  pose proof (div_mono ec ec' _ (inject_nat_pos total Ht) Hec) as H3.
  assert (H4 : (py_min (g / 300) 1 <= py_min (g' / 300) 1)%Q).
  { apply py_min_mono. unfold Qdiv. apply Qmult_le_compat_r; [exact Hg|].
    unfold Qle. simpl. lia. }
  lra.
Qed.



(** X6: penalties only lower the score.  Of two accumulators with the
    same history size (6 or more) and the same positive number of user
    messages, the one with no fewer page switches, slow responses,
    external clicks and ghosting time has no higher score. *)
Theorem score_antitone_in_penalties (w1 w2 : World) :
  (6 <= List.length (messages (self w1)))%nat ->
  (0 < user_count (self w1))%nat ->
  List.length (messages (self w1)) = List.length (messages (self w2)) ->
  user_count (self w1) = user_count (self w2) ->
  page_switches (self w1) <= page_switches (self w2) ->
  slow_responses (self w1) <= slow_responses (self w2) ->
  external_clicks (self w1) <= external_clicks (self w2) ->
  (ghosting_time (self w1) <= ghosting_time (self w2))%Q ->
  exists v1 v2,
    fst (get_engagement_score w1) = Return v1 /\
    fst (get_engagement_score w2) = Return v2 /\
    (v2 <= v1)%Q.
Proof.
  intros Hlen Hu Hl Hc Hps Hsr Hec Hg.
  rewrite (get_engagement_score_formula w1) by lia.
  rewrite (get_engagement_score_formula w2) by lia.
  eexists _, _. split; [reflexivity|]. split; [reflexivity|].
  apply py_min_mono, py_max_mono. rewrite <- Hl, <- Hc.
  apply weighted_sum_antitone; assumption || lia.
Qed.

Lemma score_antitone_in_penalties_witness :
  let w1 := exec (perform_all alternating) (fresh nat_clock) in
  let w2 := exec (perform_all (alternating ++ [RecordExternalClick;
                                               RecordPageSwitch]))
                 (fresh nat_clock) in
  exists v1 v2,
    fst (get_engagement_score w1) = Return v1 /\
    fst (get_engagement_score w2) = Return v2 /\
    (v2 <= v1)%Q.
Proof.
  cbv zeta. apply score_antitone_in_penalties.
  - vm_compute. lia.
  - vm_compute. lia.
  - reflexivity.
  - reflexivity.
  - vm_compute. discriminate.
  - vm_compute. discriminate.
  - vm_compute. discriminate.
  - vm_compute. discriminate.
Defined.

(** ** [print_metrics] *)

(** X7: [print_metrics] prints the five counter lines first and computes
    the score after.  When the score is returned, a sixth line follows;
    when the score raises, the five lines are already printed and the
    exception leaves [print_metrics].  The accumulator is not changed. *)
Theorem print_metrics_lines (w : World) :
  let s := self w in
  let five :=
    [("Total messages: "
      ++ str_int (Z.of_nat (List.length (messages s))))%string;
     ("Page switches: " ++ str_int (page_switches s))%string;
     ("Slow responses: " ++ str_int (slow_responses s))%string;
     ("External clicks: " ++ str_int (external_clicks s))%string;
     ("Ghosting time: " ++ format_2f (ghosting_time s) ++ " seconds")%string]
  in
  (forall v, fst (get_engagement_score w) = Return v ->
     print_metrics w
     = (Return tt,
        printed w (five ++ [("Engagement score: " ++ format_2f v)%string])))
  /\
  (forall e, fst (get_engagement_score w) = Raise e ->
     print_metrics w = (Raise e, printed w five)).
Proof.
  cbv zeta.
  destruct (get_engagement_score_reads_only (self w)) as [r Hr].
  split; intros x Hx; rewrite (Hr w eq_refl) in Hx; simpl in Hx; subst r;
    unfold print_metrics, bind, get_self, print;
    cbn [self clock ticks stdout]; rewrite Hr by reflexivity;
    unfold printed; cbn [self clock ticks stdout];
    rewrite <- !app_assoc; reflexivity.
Qed.

Lemma print_metrics_lines_witness :
  print_metrics after_six_bot_messages
  = (Raise ZeroDivisionError,
     printed after_six_bot_messages
             ["Total messages: 6"; "Page switches: 0"; "Slow responses: 0";
              "External clicks: 0"; "Ghosting time: 0.00 seconds"]%string).
Proof.
  destruct (print_metrics_lines after_six_bot_messages) as [_ H].
  rewrite (H ZeroDivisionError); [reflexivity|].
  vm_compute. reflexivity.
Defined.

(** * The simulator *)

(** ** [generate_message] *)

Lemma join_repeat_succ (sep word : str) (n : nat) :
  join sep (List.repeat word (S (S n)))
  = word ++ sep ++ join sep (List.repeat word (S n)).
Proof. reflexivity. Qed.

(** [n] copies of "word" joined by single spaces are [n] words. *)
Lemma words_joined (n : nat) :
  List.length (split (join (str_of " ") (List.repeat (str_of "word") n))) = n.
Proof.
  rewrite split_length.
  destruct n as [|n]; [reflexivity|].
  induction n as [|n IH]; [reflexivity|].
  rewrite join_repeat_succ.
  change (word_starts false
            (str_of "word" ++ str_of " "
             ++ join (str_of " ") (List.repeat (str_of "word") (S n))))
    with (S (word_starts false
               (join (str_of " ") (List.repeat (str_of "word") (S n))))).
  rewrite IH. reflexivity.
Qed.

Lemma random_randint_run (a b : Z) (p : Process) :
  a <= b ->
  exists n, random_randint a b p
            = (Return n, mkProcess (world p) (draws p) (S (drawn p))) /\
            a <= n <= b.
Proof.
  intros Hab. eexists. split; [reflexivity|].
  pose proof (Z.mod_pos_bound (Z.of_N (draws p (drawn p))) (b - a + 1)).
  lia.
Qed.

Lemma random_choice_run {A} (x : A) (l : list A) (p : Process) :
  exists y, random_choice (x :: l) p
            = (Return y, mkProcess (world p) (draws p) (S (drawn p))) /\
            In y (x :: l).
Proof.
  eexists. split; [reflexivity|].
  apply nth_In. apply Nat.mod_upper_bound. discriminate.
Qed.

Lemma generate_message_run (is_user : bool) (p : Process) :
  exists message length,
    generate_message is_user p
    = (Return (message, length),
       mkProcess (world p) (draws p) (S (S (drawn p)))) /\
    _categorize_length message = length /\
    (1 <= List.length (split message) <= 50)%nat.
Proof.
  unfold generate_message. unfold bindP at 1.
  destruct (random_choice_run SHORT [MEDIUM; LONG] p) as (len & Hc & Hin).
  rewrite Hc. unfold bindP.
  set (p1 := mkProcess (world p) (draws p) (S (drawn p))).
  assert (Hcat : forall n, 1 <= n <= 50 ->
            _categorize_length
              (join (str_of " ") (List.repeat (str_of "word") (Z.to_nat n)))
            = (if n <? 5 then SHORT else if n <? 20 then MEDIUM else LONG)).
  { intros n Hn. unfold _categorize_length. rewrite words_joined.
    rewrite Z2Nat.id by lia. reflexivity. }
  destruct Hin as [<-|[<-|[<-|[]]]].
  - destruct (random_randint_run 1 4 p1) as (n & Hn & Hr); [lia|].
    rewrite Hn. eexists _, _. split; [reflexivity|].
    rewrite words_joined, Hcat by lia.
    destruct (Z.ltb_spec n 5); [|lia]. split; [reflexivity | lia].
  - destruct (random_randint_run 5 19 p1) as (n & Hn & Hr); [lia|].
    rewrite Hn. eexists _, _. split; [reflexivity|].
    rewrite words_joined, Hcat by lia.
    destruct (Z.ltb_spec n 5); [lia|].
    destruct (Z.ltb_spec n 20); [|lia]. split; [reflexivity | lia].
  - destruct (random_randint_run 20 50 p1) as (n & Hn & Hr); [lia|].
    rewrite Hn. eexists _, _. split; [reflexivity|].
    rewrite words_joined, Hcat by lia.
    destruct (Z.ltb_spec n 5); [lia|].
    destruct (Z.ltb_spec n 20); [lia|]. split; [reflexivity | lia].
Qed.

(** ** [analyze_dataset] *)

Lemma on_object_score (m : ChatbotEngagementMetrics) (w : World) :
  on_object m get_engagement_score w
  = (fst (get_engagement_score
            (mkWorld m (clock w) (ticks w) (stdout w))), w).
Proof.
  unfold on_object.
  destruct (get_engagement_score_reads_only m) as [r Hr].
  rewrite Hr by reflexivity. simpl. rewrite world_eta. reflexivity.
Qed.

Lemma on_object_score_scorable (m : ChatbotEngagementMetrics) (w : World) :
  scorable m ->
  exists v, on_object m get_engagement_score w = (Return v, w) /\
            (0 <= v <= 1)%Q.
Proof.
  intros Hs. rewrite on_object_score.
  destruct (get_engagement_score_returns
              (mkWorld m (clock w) (ticks w) (stdout w)) Hs)
    as (v & Hv & Hr).
  exists v. rewrite Hv. split; [reflexivity | exact Hr].
Qed.

Lemma on_object_score_raises (m : ChatbotEngagementMetrics) (w : World) :
  ~ scorable m ->
  on_object m get_engagement_score w = (Raise ZeroDivisionError, w).
Proof.
  intros Hs. rewrite on_object_score.
  rewrite score_raises_without_user_messages_general; [reflexivity| |];
    unfold scorable in Hs; simpl; lia.
Qed.

Lemma scorable_dec (s : ChatbotEngagementMetrics) :
  {scorable s} + {~ scorable s}.
Proof.
  unfold scorable.
  destruct (lt_dec (List.length (messages s)) 6) as [H|H];
    [left; left; exact H|].
  destruct (lt_dec 0 (user_count s)) as [H'|H'];
    [left; right; exact H'|].
  right. intros [?|?]; contradiction.
Qed.

(** Over accumulators that can all be scored the loop returns, each
    conversation lands in exactly one bucket and adds a score between 0
    and 1 to the total. *)
Lemma analyze_loop_run (dataset : list ChatbotEngagementMetrics) (w : World) :
  Forall scorable dataset ->
  forall total h m l,
  exists total' h' m' l',
    analyze_loop dataset total h m l w = (Return (total', (h', m', l')), w) /\
    h <= h' /\ m <= m' /\ l <= l' /\
    (h' - h) + (m' - m) + (l' - l) = Z.of_nat (List.length dataset) /\
    (total <= total'
     <= total + inject_Z (Z.of_nat (List.length dataset)))%Q.
Proof.
  induction dataset as [|s rest IH]; intros Hall total h m l.
  - exists total, h, m, l. simpl. repeat split; try lia; try lra.
    unfold inject_Z. lra.
  - pose proof (Forall_inv Hall) as Hs.
    pose proof (Forall_inv_tail Hall) as Hrest.
    destruct (on_object_score_scorable s w Hs) as (v & Hv & Hr).
    assert (Hlen : (inject_Z (Z.of_nat (List.length (s :: rest)))
                    == 1 + inject_Z (Z.of_nat (List.length rest)))%Q).
    { simpl List.length. rewrite Nat2Z.inj_succ, <- Z.add_1_l.
      rewrite inject_Z_plus. reflexivity. }
    simpl analyze_loop. unfold bind. rewrite Hv.
    destruct (Qltb 0.7 v); [|destruct (Qltb 0.4 v)].
    + destruct (IH Hrest (total + v)%Q (h + 1) m l)
        as (t' & h' & m' & l' & Hrun & Hh & Hm & Hl & Hsum & Ht).
      exists t', h', m', l'. rewrite Hrun, Hlen.
      repeat split; try lia; try lra.
      simpl List.length. lia.
    + destruct (IH Hrest (total + v)%Q h (m + 1) l)
        as (t' & h' & m' & l' & Hrun & Hh & Hm & Hl & Hsum & Ht).
      exists t', h', m', l'. rewrite Hrun, Hlen.
      repeat split; try lia; try lra.
      simpl List.length. lia.
    + destruct (IH Hrest (total + v)%Q h m (l + 1))
        as (t' & h' & m' & l' & Hrun & Hh & Hm & Hl & Hsum & Ht).
      exists t', h', m', l'. rewrite Hrun, Hlen.
      repeat split; try lia; try lra.
      simpl List.length. lia.
Qed.

(** An accumulator that cannot be scored stops the loop. *)
Lemma analyze_loop_raises (dataset : list ChatbotEngagementMetrics)
      (w : World) :
  Exists (fun s => ~ scorable s) dataset ->
  forall total h m l,
    analyze_loop dataset total h m l w = (Raise ZeroDivisionError, w).
Proof.
  induction dataset as [|s rest IH]; intros Hex total h m l.
  - inversion Hex.
  - simpl analyze_loop. unfold bind.
    destruct (scorable_dec s) as [Hs|Hs].
    + destruct (on_object_score_scorable s w Hs) as (v & Hv & _).
      rewrite Hv.
      assert (Hrest : Exists (fun s => ~ scorable s) rest).
      { inversion Hex as [x l' H|x l' H]; subst; [contradiction|exact H]. }
      destruct (Qltb 0.7 v); [|destruct (Qltb 0.4 v)]; apply IH, Hrest.
    + rewrite (on_object_score_raises s w Hs). reflexivity.
Qed.

(** X9: [analyze_dataset] raises [ZeroDivisionError], with nothing
    printed, on an empty dataset (the average divides by its size) and on
    a dataset holding an accumulator with 6 messages or more and no user
    message (its score divides by zero). *)
Theorem analyze_dataset_raises (dataset : list ChatbotEngagementMetrics)
        (w : World) :
  dataset = [] \/ Exists (fun s => ~ scorable s) dataset ->
  analyze_dataset dataset w = (Raise ZeroDivisionError, w).
Proof.
  intros [->|Hex].
  - reflexivity.
  - unfold analyze_dataset, bind.
    rewrite (analyze_loop_raises dataset w Hex). reflexivity.
Qed.

Lemma analyze_dataset_raises_witness :
  analyze_dataset [] (fresh nat_clock)
  = (Raise ZeroDivisionError, fresh nat_clock) /\
  analyze_dataset [init; self after_six_bot_messages] (fresh nat_clock)
  = (Raise ZeroDivisionError, fresh nat_clock).
Proof.
  split.
  - apply analyze_dataset_raises. left. reflexivity.
  - apply analyze_dataset_raises. right.
    apply Exists_cons_tl, Exists_cons_hd.
    unfold scorable. vm_compute. intros [H|H]; lia.
Defined.

Lemma analyze_dataset_run (dataset : list ChatbotEngagementMetrics)
      (w : World) :
  dataset <> [] -> Forall scorable dataset ->
  exists avg high medium low,
    analyze_dataset dataset w
    = (Return tt,
       printed w (analysis_lines (List.length dataset) avg high medium low))
    /\ (0 <= avg <= 1)%Q
    /\ 0 <= high /\ 0 <= medium /\ 0 <= low
    /\ high + medium + low = Z.of_nat (List.length dataset).
Proof.
  intros Hne Hall.
  destruct (analyze_loop_run dataset w Hall 0%Q 0 0 0)
    as (total & h & m & l & Hrun & Hh & Hm & Hl & Hsum & Ht).
  assert (Hpos : (0 < List.length dataset)%nat).
  { destruct dataset; [contradiction | simpl; lia]. }
  exists (total / inject_Z (Z.of_nat (List.length dataset)))%Q, h, m, l.
  split; [|split].
  - unfold analyze_dataset, bind. rewrite Hrun.
    cbn [fst snd]. unfold truediv.
    rewrite (inject_nat_nonzero _ Hpos).
    unfold ret, print, printed, analysis_lines.
    cbn [self clock ticks stdout]. rewrite <- !app_assoc. reflexivity.
  - pose proof (inject_nat_pos _ Hpos) as Hn. split.
    + apply Qle_shift_div_l; [exact Hn | lra].
    + apply Qle_shift_div_r; [exact Hn | lra].
  - repeat split; lia.
Qed.

(** X10: on a non-empty dataset of accumulators that can all be scored,
    [analyze_dataset] returns after printing its six lines and nothing
    else: the average printed lies between 0 and 1, and the three bucket
    counts are non-negative and add up to the number of conversations. *)
Theorem analyze_dataset_report (dataset : list ChatbotEngagementMetrics)
        (w : World) :
  dataset <> [] -> Forall scorable dataset ->
  exists avg high medium low,
    analyze_dataset dataset w
    = (Return tt,
       printed w (analysis_lines (List.length dataset) avg high medium low))
    /\ (0 <= avg <= 1)%Q
    /\ 0 <= high /\ 0 <= medium /\ 0 <= low
    /\ high + medium + low = Z.of_nat (List.length dataset).
Proof. apply analyze_dataset_run. Qed.

Lemma analyze_dataset_report_witness :
  let dataset :=
    [self (exec (perform_all alternating) (fresh nat_clock)); init] in
  exists avg high medium low,
    analyze_dataset dataset (fresh nat_clock)
    = (Return tt,
       printed (fresh nat_clock) (analysis_lines 2 avg high medium low))
    /\ (0 <= avg <= 1)%Q
    /\ 0 <= high /\ 0 <= medium /\ 0 <= low
    /\ high + medium + low = 2.
Proof.
  cbv zeta.
  apply (analyze_dataset_report
           [self (exec (perform_all alternating) (fresh nat_clock)); init]
           (fresh nat_clock)).
  - discriminate.
  - constructor; [right; vm_compute; lia|].
    constructor; [left; vm_compute; lia | constructor].
Defined.

Example analyze_dataset_example :
  stdout (exec (analyze_dataset
                  [self (exec (perform_all alternating) (fresh nat_clock));
                   init])
               (fresh nat_clock))
  = ["Dataset Analysis:"; "Total conversations: 2";
     "Average engagement score: 0.42";
     "High engagement conversations: 1";
     "Medium engagement conversations: 0";
     "Low engagement conversations: 1"]%string.
Proof. vm_compute. reflexivity. Qed.

(** X8: [generate_message] never raises, consumes two draws and leaves
    the world alone; the text it returns is between 1 and 50 words long
    and the length category it returns is the one [_categorize_length]
    gives that text. *)
Theorem generate_message_label (is_user : bool) (p : Process) :
  exists message length,
    generate_message is_user p
    = (Return (message, length),
       mkProcess (world p) (draws p) (S (S (drawn p)))) /\
    _categorize_length message = length /\
    (1 <= List.length (split message) <= 50)%nat.
Proof. apply generate_message_run. Qed.

(** ** Computations that add no message *)

Lemma quiet_refl (w : World) : quiet w w.
Proof. repeat split. lia. Qed.

Lemma quiet_trans (w1 w2 w3 : World) :
  quiet w1 w2 -> quiet w2 w3 -> quiet w1 w3.
Proof.
  intros (Hm1 & Hc1 & Ho1 & Ht1) (Hm2 & Hc2 & Ho2 & Ht2).
  repeat split; [congruence | congruence | congruence | lia].
Qed.

Lemma bindP_run {A B} (c : P A) (k : A -> P B) (p p1 : Process) (a : A) :
  c p = (Return a, p1) -> bindP c k p = k a p1.
Proof. intros H. unfold bindP. rewrite H. reflexivity. Qed.

Lemma quietly_ret {A} (a : A) : quietly (retP a).
Proof.
  intros p. exists a, (world p), (drawn p). destruct p. simpl.
  repeat split; lia.
Qed.

Lemma quietly_bind {A B} (c : P A) (k : A -> P B) :
  quietly c -> (forall a, quietly (k a)) -> quietly (bindP c k).
Proof.
  intros Hc Hk p.
  destruct (Hc p) as (a & w1 & n1 & Hrun1 & Hq1 & Hn1).
  destruct (Hk a (mkProcess w1 (draws p) n1))
    as (b & w2 & n2 & Hrun2 & Hq2 & Hn2).
  simpl in Hrun2, Hq2, Hn2.
  exists b, w2, n2. rewrite (bindP_run _ _ _ _ _ Hrun1), Hrun2.
  split; [reflexivity|]. split; [eapply quiet_trans; eassumption | lia].
Qed.

Lemma quietly_random_random : quietly random_random.
Proof.
  intros p. eexists _, (world p), (S (drawn p)).
  split; [reflexivity|]. split; [apply quiet_refl | lia].
Qed.

Lemma quietly_random_uniform (a b : Q) : quietly (random_uniform a b).
Proof.
  apply quietly_bind; [apply quietly_random_random|].
  intros r. apply quietly_ret.
Qed.

Lemma quietly_time_sleep (secs : Q) : quietly (time_sleep secs).
Proof. apply quietly_ret. Qed.

(** Every recording call but [add_message] is quiet. *)
Lemma quietly_perform (c : call) :
  recorded [c] = [] -> quietly (lift (perform c)).
Proof.
  intros Hc p.
  destruct (perform_cases c (world p))
    as (s' & t' & Hrun & Ht & _ & _ & _ & _ & Hm & _).
  exists tt, (mkWorld s' (clock (world p)) t' (stdout (world p))), (drawn p).
  unfold lift. rewrite Hrun. split; [reflexivity|].
  split; [|lia]. repeat split; [|exact Ht]. simpl. rewrite Hm.
  destruct c; try reflexivity. discriminate.
Qed.

Lemma quietly_lift_time_time : quietly (lift time_time).
Proof.
  intros p. eexists _, _, (drawn p). split; [reflexivity|].
  split; [|lia]. repeat split. simpl. lia.
Qed.

(** ** [simulate_conversation] *)

(** What follows [add_message] in one pass of the loop adds no message. *)
Lemma simulate_turn_events (is_user_turn : bool) :
  quietly
    (bindP
       (if is_user_turn
        then
          bindP (bindP random_random (fun r =>
                   if Qltb r 0.1 then lift record_slow_response
                   else retP tt))
            (fun _ =>
               bindP (bindP random_random (fun r =>
                        if Qltb r 0.05 then lift record_page_switch
                        else retP tt))
                 (fun _ =>
                    bindP random_random (fun r =>
                      if Qltb r 0.03 then lift record_external_click
                      else retP tt)))
        else
          bindP random_random (fun r =>
            if Qltb r 0.02
            then bindP (random_uniform 10 60) (fun secs =>
                   bindP (time_sleep secs) (fun _ =>
                     lift update_ghosting_time))
            else retP tt))
       (fun _ => bindP (random_uniform 1 10) (fun secs => time_sleep secs))).
Proof.
  assert (Hslow : quietly (lift record_slow_response))
    by apply (quietly_perform RecordSlowResponse eq_refl).
  assert (Hswitch : quietly (lift record_page_switch))
    by apply (quietly_perform RecordPageSwitch eq_refl).
  assert (Hclick : quietly (lift record_external_click))
    by apply (quietly_perform RecordExternalClick eq_refl).
  assert (Hghost : quietly (lift update_ghosting_time))
    by apply (quietly_perform UpdateGhostingTime eq_refl).
  apply quietly_bind.
  - destruct is_user_turn.
    + assert (Hmaybe : forall (thr : Q) (c : P unit),
                quietly c ->
                quietly (bindP random_random (fun r =>
                           if Qltb r thr then c else retP tt))).
      { intros thr c Hc. apply quietly_bind; [apply quietly_random_random|].
        intros r. destruct (Qltb r thr); [exact Hc | apply quietly_ret]. }
      apply quietly_bind; [apply Hmaybe, Hslow|]. intros _.
      apply quietly_bind; [apply Hmaybe, Hswitch|]. intros _.
      apply Hmaybe, Hclick.
    + apply quietly_bind; [apply quietly_random_random|]. intros r.
      destruct (Qltb r 0.02); [|apply quietly_ret].
      apply quietly_bind; [apply quietly_random_uniform|]. intros secs.
      apply quietly_bind; [apply quietly_time_sleep|]. intros _.
      exact Hghost.
  - intros _. apply quietly_bind; [apply quietly_random_uniform|].
    intros secs. apply quietly_time_sleep.
Qed.

(** One pass of the loop: it returns, and the history has one message
    more, of the role whose turn it was. *)
Lemma simulate_turn_run (is_user_turn : bool) (p : Process) :
  exists w' n' m,
    simulate_turn is_user_turn p = (Return tt, mkProcess w' (draws p) n') /\
    messages (self w') = messages (self (world p)) ++ [m] /\
    Message.is_user m = is_user_turn /\
    clock w' = clock (world p) /\
    stdout w' = stdout (world p) /\
    (ticks (world p) < ticks w')%nat.
Proof.
  destruct (generate_message_run is_user_turn p)
    as (message & len & Hgen & _).
  destruct (perform_cases (AddMessage message is_user_turn) (world p))
    as (s1 & t1 & Hadd & _ & _ & _ & _ & _ & Hm & Ht & _).
  simpl perform in Hadd.
  set (p1 := mkProcess
               (mkWorld s1 (clock (world p)) t1 (stdout (world p)))
               (draws p) (S (S (drawn p)))).
  destruct (simulate_turn_events is_user_turn p1)
    as (a & w' & n' & Hrun & (Hq1 & Hq2 & Hq4 & Hq3) & _).
  exists w', n', (Message.mk message (now (world p)) is_user_turn
                             (_categorize_length message)).
  split.
  - unfold simulate_turn. rewrite (bindP_run _ _ _ _ _ Hgen). cbn [fst].
    assert (Hlift : lift (add_message message is_user_turn)
                         (mkProcess (world p) (draws p) (S (S (drawn p))))
                    = (Return tt, p1)).
    { unfold lift. cbn [world draws drawn]. rewrite Hadd. reflexivity. }
    rewrite (bindP_run _ _ _ _ _ Hlift).
    rewrite Hrun. destruct a. reflexivity.
  - simpl in Hq1, Hq2, Hq3, Hq4. rewrite Hq1, Hq2, Hq4, Hm.
    repeat split. lia.
Qed.

Lemma alternating_roles_snoc (l : list Message.t) (m : Message.t) :
  alternating_roles l ->
  Message.is_user m = Nat.odd (List.length l) ->
  alternating_roles (l ++ [m]).
Proof.
  unfold alternating_roles. intros Hl Hm.
  rewrite length_app, Nat.add_1_r, seq_S, !map_app, Hl. simpl.
  rewrite Hm. reflexivity.
Qed.

Lemma odd_indices (n : nat) :
  (2 * List.length (List.filter (fun b : bool => b)
                                (List.map Nat.odd (seq 0 n)))
   + (if Nat.odd n then 1 else 0) = n)%nat.
Proof.
  induction n as [|n IH]; [reflexivity|].
  rewrite seq_S, map_app, filter_app, length_app. simpl.
  rewrite Nat.odd_succ, <- Nat.negb_odd.
  destruct (Nat.odd n); simpl in *; lia.
Qed.

Lemma filter_map_length {A} (f : A -> bool) (l : list A) :
  List.length (List.filter f l)
  = List.length (List.filter (fun b : bool => b) (List.map f l)).
Proof.
  induction l as [|a l IH]; [reflexivity|].
  simpl. destruct (f a); simpl; rewrite IH; reflexivity.
Qed.

(** In an alternating history the user wrote half of the messages,
    rounded down. *)
Lemma alternating_user_count (s : ChatbotEngagementMetrics) :
  alternating_roles (messages s) ->
  (2 * user_count s <= List.length (messages s) <= 2 * user_count s + 1)%nat.
Proof.
  intros H. unfold user_count. rewrite filter_map_length, H.
  pose proof (odd_indices (List.length (messages s))) as Ho.
  destruct (Nat.odd (List.length (messages s))); lia.
Qed.

Lemma alternating_scorable (s : ChatbotEngagementMetrics) :
  alternating_roles (messages s) -> scorable s.
Proof.
  intros H. pose proof (alternating_user_count s H). unfold scorable. lia.
Qed.

(** The loop keeps the history alternating and never raises. *)
Lemma simulate_loop_run (fuel : nat) (start_time : Q) (duration : Z) :
  forall p,
    alternating_roles (messages (self (world p))) ->
    exists ended w' n',
      simulate_loop fuel start_time duration
                    (Nat.odd (List.length (messages (self (world p))))) p
      = (Return ended, mkProcess w' (draws p) n') /\
      alternating_roles (messages (self w')) /\
      clock w' = clock (world p) /\
      stdout w' = stdout (world p).
Proof.
  induction fuel as [|fuel IH]; intros p Halt.
  - exists false, (world p), (drawn p). destruct p. simpl. auto.
  - simpl simulate_loop. unfold bindP at 1. unfold lift at 1, time_time.
    destruct (Qltb (clock (world p) (ticks (world p)) - start_time)
                   (inject_Z duration)).
    + set (p1 := mkProcess
                   (mkWorld (self (world p)) (clock (world p))
                            (S (ticks (world p))) (stdout (world p)))
                   (draws p) (drawn p)).
      destruct (simulate_turn_run
                  (Nat.odd (List.length (messages (self (world p))))) p1)
        as (w2 & n2 & m & Hturn & Hm & Hrole & Hclk & Hout & _).
      rewrite (bindP_run _ _ _ _ _ Hturn).
      simpl in Hm, Hclk, Hout.
      assert (Halt2 : alternating_roles (messages (self w2))).
      { rewrite Hm. apply alternating_roles_snoc; assumption. }
      destruct (IH (mkProcess w2 (draws p1) n2) Halt2)
        as (ended & w' & n' & Hrun & Halt' & Hclk' & Hout').
      simpl in Hrun, Hclk', Hout'.
      rewrite Hm, length_app, Nat.add_1_r, Nat.odd_succ, <- Nat.negb_odd
        in Hrun.
      exists ended, w', n'. cbv beta. subst p1.
      cbn [world draws drawn] in *. rewrite Hrun.
      repeat split; [exact Halt' | congruence | congruence].
    + eexists true, _, (drawn p). split; [reflexivity|]. auto.
Qed.

(** The whole simulation, on whatever world it starts. *)
Lemma simulate_conversation_run (fuel : nat) (duration : Z) (p : Process) :
  exists ended w' n',
    simulate_conversation fuel duration p
    = (Return (if ended : bool then Some (self w') else None),
       mkProcess w' (draws p) n') /\
    alternating_roles (messages (self w')) /\
    clock w' = clock (world p) /\
    stdout w' = stdout (world p).
Proof.
  unfold simulate_conversation.
  unfold bindP at 1. unfold lift at 1, put_self.
  unfold bindP at 1. unfold lift at 1, time_time.
  cbn [world draws drawn self clock ticks stdout].
  set (p1 := mkProcess
               (mkWorld init (clock (world p)) (S (ticks (world p)))
                        (stdout (world p)))
               (draws p) (drawn p)).
  destruct (simulate_loop_run fuel (clock (world p) (ticks (world p)))
                              duration p1)
    as (ended & w' & n' & Hrun & Halt & Hclk & Hout).
  { unfold alternating_roles. reflexivity. }
  simpl in Hrun, Hclk, Hout.
  exists ended, w', n'. rewrite (bindP_run _ _ _ _ _ Hrun).
  split; [|repeat split; assumption].
  unfold bindP, lift, get_self. cbn [world draws drawn]. reflexivity.
Qed.

(** X11: [simulate_conversation] never raises, whatever the clock and
    the random draws are, and the history it builds alternates between
    the two roles, the bot first. *)
Theorem simulate_conversation_alternates (fuel : nat) (duration : Z)
        (p : Process) :
  exists r p',
    simulate_conversation fuel duration p = (Return r, p') /\
    (forall metrics, r = Some metrics -> metrics = self (world p')) /\
    alternating_roles (messages (self (world p'))) /\
    (2 * user_count (self (world p'))
     <= List.length (messages (self (world p')))
     <= 2 * user_count (self (world p')) + 1)%nat.
Proof.
  destruct (simulate_conversation_run fuel duration p)
    as (ended & w' & n' & Hrun & Halt & _).
  eexists _, _. split; [exact Hrun|]. simpl.
  split; [|split; [exact Halt | apply alternating_user_count, Halt]].
  intros metrics H. destruct ended; [|discriminate].
  injection H as <-. reflexivity.
Qed.

(** X12: the score of a simulated conversation is always returned, and
    lies between 0 and 1: the simulator never builds a history of 6
    messages or more without a user message. *)
Theorem simulated_conversation_score (fuel : nat) (duration : Z)
        (p : Process) :
  let w' := world (snd (simulate_conversation fuel duration p)) in
  exists v, get_engagement_score w' = (Return v, w') /\ (0 <= v <= 1)%Q.
Proof.
  cbv zeta.
  destruct (simulate_conversation_run fuel duration p)
    as (ended & w' & n' & Hrun & Halt & _).
  rewrite Hrun. simpl.
  apply get_engagement_score_returns, alternating_scorable, Halt.
Qed.

(** ** Termination of the simulation *)

(** Once the clock has passed the end of the conversation for good, the
    loop ends before its fuel does. *)
Lemma simulate_loop_ends (start_time : Q) (duration : Z) (k : nat)
      (clk : nat -> Q) :
  (forall i, (k <= i)%nat -> (inject_Z duration <= clk i - start_time)%Q) ->
  forall fuel is_user_turn p,
    clock (world p) = clk ->
    (1 <= fuel)%nat -> (k + 1 <= ticks (world p) + fuel)%nat ->
    exists p',
      simulate_loop fuel start_time duration is_user_turn p
      = (Return true, p').
Proof.
  intros Hk. induction fuel as [|fuel IH]; intros turn p Hclk H1 H2; [lia|].
  simpl simulate_loop. unfold bindP at 1. unfold lift at 1, time_time.
  destruct (Qltb (clock (world p) (ticks (world p)) - start_time)
                 (inject_Z duration)) eqn:Hlt.
  - apply Qltb_lt in Hlt.
    assert (Hticks : (ticks (world p) < k)%nat).
    { destruct (le_lt_dec k (ticks (world p))) as [Hge|Hlt']; [|exact Hlt'].
      specialize (Hk _ Hge). rewrite Hclk in Hlt. lra. }
    set (p1 := mkProcess
                 (mkWorld (self (world p)) (clock (world p))
                          (S (ticks (world p))) (stdout (world p)))
                 (draws p) (drawn p)).
    destruct (simulate_turn_run turn p1)
      as (w2 & n2 & m & Hturn & _ & _ & Hclk2 & _ & Ht2).
    rewrite (bindP_run _ _ _ _ _ Hturn). cbv beta.
    simpl in Hclk2, Ht2.
    apply IH; simpl; [congruence | lia | lia].
  - eexists. reflexivity.
Qed.

(** More fuel does not change how the loop ended. *)
Lemma simulate_loop_more_fuel (start_time : Q) (duration : Z) :
  forall fuel fuel' is_user_turn p p',
    (fuel <= fuel')%nat ->
    simulate_loop fuel start_time duration is_user_turn p
    = (Return true, p') ->
    simulate_loop fuel' start_time duration is_user_turn p
    = (Return true, p').
Proof.
  induction fuel as [|fuel IH]; intros fuel' turn p p' Hle Hrun;
    [discriminate|].
  destruct fuel' as [|fuel']; [lia|].
  simpl simulate_loop in *. unfold bindP at 1 in Hrun. unfold bindP at 1.
  unfold lift at 1, time_time in Hrun. unfold lift at 1, time_time.
  destruct (Qltb (clock (world p) (ticks (world p)) - start_time)
                 (inject_Z duration)); [|exact Hrun].
  set (p1 := mkProcess
               (mkWorld (self (world p)) (clock (world p))
                        (S (ticks (world p))) (stdout (world p)))
               (draws p) (drawn p)) in *.
  destruct (simulate_turn_run turn p1) as (w2 & n2 & m & Hturn & _).
  rewrite (bindP_run _ _ _ _ _ Hturn) in Hrun.
  rewrite (bindP_run _ _ _ _ _ Hturn).
  apply (IH fuel'); [lia | exact Hrun].
Qed.

(** Over a clock that passes every time, the simulation ends, the same
    way for every fuel above some bound. *)
Lemma simulate_conversation_ends_run (duration : Z) (p : Process) :
  unbounded (clock (world p)) ->
  exists bound w' n',
    alternating_roles (messages (self w')) /\
    clock w' = clock (world p) /\
    stdout w' = stdout (world p) /\
    forall fuel, (bound <= fuel)%nat ->
      simulate_conversation fuel duration p
      = (Return (Some (self w')), mkProcess w' (draws p) n').
Proof.
  intros Hunb.
  destruct (Hunb (inject_Z duration + now (world p))%Q) as [k Hk].
  set (p1 := mkProcess
               (mkWorld init (clock (world p)) (S (ticks (world p)))
                        (stdout (world p)))
               (draws p) (drawn p)).
  assert (Hend : exists p',
             simulate_loop (S k) (now (world p)) duration false p1
             = (Return true, p')).
  { apply (simulate_loop_ends _ _ k (clock (world p))).
    - intros i Hi. specialize (Hk i Hi). lra.
    - reflexivity.
    - lia.
    - simpl. lia. }
  destruct Hend as [p' Hend].
  destruct (simulate_loop_run (S k) (now (world p)) duration p1)
    as (ended & w' & n' & Hrun & Halt & Hclk & Hout).
  { unfold alternating_roles. reflexivity. }
  change (Nat.odd (List.length (messages (self (world p1))))) with false
    in Hrun.
  rewrite Hend in Hrun. injection Hrun as <- ->.
  exists (S k), w', n'. split; [exact Halt|]. split; [exact Hclk|].
  split; [exact Hout|].
  intros fuel Hfuel. unfold simulate_conversation.
  unfold bindP at 1. unfold lift at 1, put_self.
  unfold bindP at 1. unfold lift at 1, time_time.
  cbn [world draws drawn self clock ticks stdout]. fold (now (world p)).
  fold p1.
  rewrite (bindP_run _ _ _ _ _
             (simulate_loop_more_fuel _ _ _ _ _ _ _ Hfuel Hend)).
  reflexivity.
Qed.

Lemma nat_clock_unbounded : unbounded nat_clock.
Proof.
  intros q. exists (Z.to_nat (Qceiling q)). intros i Hi.
  apply Qle_trans with (inject_Z (Qceiling q)); [apply Qle_ceiling|].
  unfold nat_clock. rewrite <- Zle_Qle. lia.
Qed.

(** X13: over a clock that passes every time, [simulate_conversation]
    ends and returns the accumulator it built, for every fuel above some
    bound. *)
Theorem simulate_conversation_ends (duration : Z) (p : Process) :
  unbounded (clock (world p)) ->
  exists bound, forall fuel, (bound <= fuel)%nat ->
    exists metrics p',
      simulate_conversation fuel duration p = (Return (Some metrics), p').
Proof.
  intros Hunb.
  destruct (simulate_conversation_ends_run duration p Hunb)
    as (bound & w' & n' & _ & _ & _ & Hrun).
  exists bound. intros fuel Hfuel. eexists _, _. apply Hrun, Hfuel.
Qed.

Lemma simulate_conversation_ends_witness :
  exists bound, forall fuel, (bound <= fuel)%nat ->
    exists metrics p',
      simulate_conversation
        fuel 300 (mkProcess (fresh nat_clock) (fun n => N.of_nat n) 0)
      = (Return (Some metrics), p').
Proof.
  apply (simulate_conversation_ends
           300 (mkProcess (fresh nat_clock) (fun n => N.of_nat n) 0)).
  apply nat_clock_unbounded.
Defined.

(** ** [generate_dataset] and the script *)

(** The loop never raises; a dataset it returns has one accumulator more
    for each simulation, each with an alternating history. *)
Lemma generate_dataset_loop_run (fuel n : nat) :
  forall dataset p,
    Forall (fun s => alternating_roles (messages s)) dataset ->
    exists r w' n',
      generate_dataset_loop fuel n dataset p
      = (Return r, mkProcess w' (draws p) n') /\
      clock w' = clock (world p) /\
      stdout w' = stdout (world p) /\
      forall d, r = Some d ->
        Forall (fun s => alternating_roles (messages s)) d /\
        List.length d = (List.length dataset + n)%nat.
Proof.
  induction n as [|n IH]; intros dataset p Hall.
  - exists (Some dataset), (world p), (drawn p). destruct p. simpl.
    split; [reflexivity|]. split; [reflexivity|]. split; [reflexivity|].
    intros d0 H. injection H as <-. split; [exact Hall | lia].
  - simpl generate_dataset_loop.
    destruct (simulate_conversation_run fuel 300 p)
      as (ended & w1 & n1 & Hrun & Halt & Hclk & Hout).
    rewrite (bindP_run _ _ _ _ _ Hrun).
    destruct ended.
    + destruct (IH (dataset ++ [self w1]) (mkProcess w1 (draws p) n1))
        as (r & w' & n' & Hloop & Hclk' & Hout' & Hres).
      { apply Forall_app. split; [exact Hall|].
        constructor; [exact Halt | constructor]. }
      simpl in Hloop, Hclk', Hout'. exists r, w', n'. rewrite Hloop.
      split; [reflexivity|]. split; [congruence|]. split; [congruence|].
      intros d Hd. destruct (Hres d Hd) as [Hf Hl]. split; [exact Hf|].
      rewrite Hl, length_app. simpl. lia.
    + exists None, w1, n1. split; [reflexivity|]. split; [exact Hclk|].
      split; [exact Hout|]. intros d Hd. discriminate.
Qed.

(** Over a clock that passes every time the loop returns a dataset, the
    same for every fuel above some bound. *)
Lemma generate_dataset_loop_ends (n : nat) :
  forall dataset p,
    unbounded (clock (world p)) ->
    exists bound d p',
      forall fuel, (bound <= fuel)%nat ->
        generate_dataset_loop fuel n dataset p = (Return (Some d), p').
Proof.
  induction n as [|n IH]; intros dataset p Hunb.
  - exists 0%nat, dataset, p. intros fuel _. reflexivity.
  - destruct (simulate_conversation_ends_run 300 p Hunb)
      as (b1 & w1 & n1 & _ & Hclk & _ & Hrun).
    destruct (IH (dataset ++ [self w1]) (mkProcess w1 (draws p) n1))
      as (b2 & d & p' & Hloop).
    { simpl. rewrite Hclk. exact Hunb. }
    exists (Nat.max b1 b2), d, p'. intros fuel Hfuel.
    simpl generate_dataset_loop.
    rewrite (bindP_run _ _ _ _ _ (Hrun fuel ltac:(lia))).
    apply Hloop. lia.
Qed.

(** X14: [generate_dataset] never raises.  A dataset it returns holds
    exactly [num_conversations] accumulators (none when the number is
    negative), each with an alternating history; and over a clock that
    passes every time it does return one, for every fuel above some
    bound. *)
Theorem generate_dataset_size (num_conversations : Z) (p : Process) :
  (forall fuel, exists r p',
     generate_dataset fuel num_conversations p = (Return r, p') /\
     forall d, r = Some d ->
       List.length d = Z.to_nat num_conversations /\
       Forall (fun s => alternating_roles (messages s)) d) /\
  (unbounded (clock (world p)) ->
   exists bound, forall fuel, (bound <= fuel)%nat ->
     exists d p',
       generate_dataset fuel num_conversations p = (Return (Some d), p')).
Proof.
  split.
  - intros fuel. unfold generate_dataset.
    destruct (generate_dataset_loop_run
                fuel (Z.to_nat num_conversations) [] p)
      as (r & w' & n' & Hrun & _ & _ & Hres); [constructor|].
    eexists _, _. split; [exact Hrun|].
    intros d Hd. destruct (Hres d Hd) as [Hf Hl]. split; [|exact Hf].
    rewrite Hl. reflexivity.
  - intros Hunb. unfold generate_dataset.
    destruct (generate_dataset_loop_ends
                (Z.to_nat num_conversations) [] p Hunb)
      as (bound & d & p' & Hrun).
    exists bound. intros fuel Hfuel. exists d, p'. apply Hrun, Hfuel.
Qed.

Lemma generate_dataset_size_witness :
  exists bound, forall fuel, (bound <= fuel)%nat ->
    exists d p',
      generate_dataset
        fuel 100 (mkProcess (fresh nat_clock) (fun n => N.of_nat n) 0)
      = (Return (Some d), p').
Proof.
  destruct (generate_dataset_size
              100 (mkProcess (fresh nat_clock) (fun n => N.of_nat n) 0))
    as [_ H].
  apply H. apply nat_clock_unbounded.
Defined.

Lemma Forall_firstn {A} (Q : A -> Prop) (n : nat) (l : list A) :
  Forall Q l -> Forall Q (firstn n l).
Proof.
  revert l. induction n as [|n IH]; intros l H; [constructor|].
  destruct l as [|a l]; [constructor|].
  simpl. constructor; [exact (Forall_inv H)|].
  apply IH. exact (Forall_inv_tail H).
Qed.

(** The report of an accumulator that can be scored is printed in full:
    six lines. *)
Lemma print_metrics_scorable (s : ChatbotEngagementMetrics) :
  scorable s ->
  exists out, List.length out = 6%nat /\
    forall w, self w = s -> print_metrics w = (Return tt, printed w out).
Proof.
  intros Hs.
  destruct (get_engagement_score_reads_only s) as [r Hr].
  assert (Hret : exists v, r = Return v).
  { destruct (get_engagement_score_returns
                (mkWorld s nat_clock 0 []) Hs) as (v & Hv & _).
    rewrite Hr in Hv by reflexivity. injection Hv as ->. eauto. }
  destruct Hret as [v ->].
  eexists. split; [|intros w Hw].
  2:{ unfold print_metrics, bind, get_self, print.
      cbn [self clock ticks stdout]. rewrite Hr by exact Hw.
      unfold printed. cbn [self clock ticks stdout].
      rewrite Hw, <- !app_assoc. reflexivity. }
  reflexivity.
Qed.

Lemma on_object_print_metrics (s : ChatbotEngagementMetrics) (w : World) :
  scorable s ->
  exists out, List.length out = 6%nat /\
              on_object s print_metrics w = (Return tt, printed w out).
Proof.
  intros Hs. destruct (print_metrics_scorable s Hs) as (out & Hlen & Hout).
  exists out. split; [exact Hlen|].
  unfold on_object. rewrite Hout by reflexivity. reflexivity.
Qed.

Lemma print_details_run (l : list ChatbotEngagementMetrics) :
  Forall scorable l ->
  forall i w, exists out,
    List.length out = (7 * List.length l)%nat /\
    print_details i l w = (Return tt, printed w out).
Proof.
  induction l as [|s l IH]; intros Hall i w.
  - exists []. rewrite printed_nil. split; reflexivity.
  - pose proof (Forall_inv Hall) as Hs.
    pose proof (Forall_inv_tail Hall) as Hl.
    simpl print_details. unfold bind at 1. unfold print at 1.
    match goal with
    | |- context [bind _ _ ?w1] => set (w1' := w1)
    end.
    destruct (on_object_print_metrics s w1' Hs) as (out1 & Hlen1 & Hout1).
    unfold bind. rewrite Hout1.
    destruct (IH Hl (i + 1) (printed w1' out1)) as (out2 & Hlen2 & Hout2).
    rewrite Hout2. eexists. split.
    2:{ subst w1'. unfold printed.
        cbn [self clock ticks stdout]. rewrite <- !app_assoc. reflexivity. }
    simpl List.length. rewrite length_app. lia.
Qed.

Lemma lift_returns {A} (c : M A) (p : Process) (a : A) (w' : World) :
  c (world p) = (Return a, w') ->
  lift c p = (Return a, mkProcess w' (draws p) (drawn p)).
Proof. intros H. unfold lift. rewrite H. reflexivity. Qed.

(** What the script does after a dataset of 100 alternating
    conversations was generated. *)
Lemma script_report (d : list ChatbotEngagementMetrics) (p : Process) :
  List.length d = 100%nat ->
  Forall (fun s => alternating_roles (messages s)) d ->
  exists out,
    List.length out = 41%nat /\
    bindP (lift (analyze_dataset d))
          (fun _ => bindP (lift (print_details 0 (firstn 5 d)))
                          (fun _ => retP (Some tt))) p
    = (Return (Some tt),
       mkProcess (printed (world p) out) (draws p) (drawn p)).
Proof.
  intros Hlen Halt.
  assert (Hsc : Forall scorable d).
  { eapply Forall_impl; [|exact Halt]. intros s. apply alternating_scorable. }
  destruct (analyze_dataset_run d (world p)) as (avg & h & m & l & Hrun & _).
  { intros E. rewrite E in Hlen. discriminate. }
  { exact Hsc. }
  rewrite (bindP_run _ _ _ _ _ (lift_returns _ _ _ _ Hrun)).
  set (p1 := mkProcess _ (draws p) (drawn p)).
  destruct (print_details_run (firstn 5 d) (Forall_firstn _ 5 d Hsc)
                              0 (world p1)) as (out & Hout & Hdet).
  rewrite (bindP_run _ _ _ _ _ (lift_returns _ _ _ _ Hdet)).
  subst p1. cbn [world draws drawn]. rewrite printed_app.
  eexists. split; [|reflexivity].
  rewrite length_app, Hout, length_firstn, Hlen. reflexivity.
Qed.

(** X15: the script at the end of the file never raises: the dataset it
    analyzes has 100 conversations, each with an alternating history, so
    neither division meets a zero.  Over a clock that passes every time
    it runs to its end, for every fuel above some bound, and has then
    called [print] 41 times: six times for the analysis and seven times
    for each of the first five conversations. *)
Theorem script_never_raises (p : Process) :
  (forall fuel, exists r p', script fuel p = (Return r, p')) /\
  (unbounded (clock (world p)) ->
   exists bound, forall fuel, (bound <= fuel)%nat ->
     exists out p',
       script fuel p = (Return (Some tt), p') /\
       stdout (world p') = stdout (world p) ++ out /\
       List.length out = 41%nat).
Proof.
  split.
  - intros fuel. unfold script, generate_dataset.
    destruct (generate_dataset_loop_run fuel (Z.to_nat 100) [] p)
      as (r & w' & n' & Hrun & _ & _ & Hres); [constructor|].
    rewrite (bindP_run _ _ _ _ _ Hrun).
    destruct r as [d|]; [|eexists _, _; reflexivity].
    destruct (Hres d eq_refl) as [Halt Hlen].
    destruct (script_report d (mkProcess w' (draws p) n') Hlen Halt)
      as (out & _ & Hrep).
    rewrite Hrep. eexists _, _. reflexivity.
  - intros Hunb. unfold script, generate_dataset.
    destruct (generate_dataset_loop_ends (Z.to_nat 100) [] p Hunb)
      as (bound & d & p1 & Hends).
    exists bound. intros fuel Hfuel.
    destruct (generate_dataset_loop_run fuel (Z.to_nat 100) [] p)
      as (r & w' & n' & Hrun & _ & Hstd & Hres); [constructor|].
    rewrite (Hends fuel Hfuel) in Hrun. injection Hrun as <- ->.
    destruct (Hres d eq_refl) as [Halt Hlen].
    rewrite (bindP_run _ _ _ _ _ (Hends fuel Hfuel)).
    destruct (script_report d (mkProcess w' (draws p) n') Hlen Halt)
      as (out & Hout & Hrep).
    rewrite Hrep. exists out. eexists. split; [reflexivity|].
    split; [|exact Hout]. simpl. rewrite Hstd. reflexivity.
Qed.

Lemma script_never_raises_witness :
  exists bound, forall fuel, (bound <= fuel)%nat ->
    exists out p',
      script fuel (mkProcess (fresh nat_clock) (fun n => N.of_nat n) 0)
      = (Return (Some tt), p') /\
      stdout (world p') = [] ++ out /\
      List.length out = 41%nat.
Proof.
  destruct (script_never_raises
              (mkProcess (fresh nat_clock) (fun n => N.of_nat n) 0))
    as [_ H].
  apply H. apply nat_clock_unbounded.
Defined.

(** ** Signs of the counters *)

(** X16: in every world built by recording calls the three integer
    counters are non-negative, and so is [ghosting_time] when the clock
    never runs backwards. *)
Theorem reachable_counters_nonnegative (w : World) :
  reachable w ->
  0 <= page_switches (self w) /\
  0 <= slow_responses (self w) /\
  0 <= external_clicks (self w) /\
  (monotone (clock w) -> (0 <= ghosting_time (self w))%Q).
Proof.
  intros Hr.
  assert (H : stamped w /\
              0 <= page_switches (self w) /\
              0 <= slow_responses (self w) /\
              0 <= external_clicks (self w) /\
              (monotone (clock w) -> (0 <= ghosting_time (self w))%Q)).
  { revert w Hr.
    apply (reachable_invariant
             (fun w => stamped w /\
                       0 <= page_switches (self w) /\
                       0 <= slow_responses (self w) /\
                       0 <= external_clicks (self w) /\
                       (monotone (clock w) ->
                        (0 <= ghosting_time (self w))%Q))).
    - intros clk. split; [constructor|]. simpl.
      split; [lia|]. split; [lia|]. split; [lia|]. intros _. lra.
    - intros c w (Hst & Hp & Hs & He & Hg).
      split; [apply perform_stamped, Hst|].
      destruct (perform_counters c w) as (Hp1 & Hs1 & He1).
      destruct (perform_clock c w) as [_ Hclk].
      repeat split; try lia.
      + rewrite He1. destruct (is_external_click c); lia.
      + rewrite Hclk. intros Hmono. specialize (Hg Hmono).
        destruct (perform_cases c w)
          as (s1 & t1 & Hrun & _ & _ & _ & _ & _ & _ & _ & Hgh).
        unfold exec. rewrite Hrun. simpl self.
        destruct Hgh as [E|(pre & m & Hm & E)]; rewrite E; [exact Hg|].
        pose proof (stamped_past w Hmono Hst) as Hpast.
        rewrite Hm in Hpast. apply Forall_app in Hpast.
        destruct Hpast as [_ Hlast].
        pose proof (Forall_inv Hlast) as Hle. simpl in Hle. lra. }
  destruct H as (_ & H). exact H.
Qed.

Lemma reachable_counters_nonnegative_witness :
  let w := exec (perform_all (alternating ++ [UpdateGhostingTime;
                                              RecordExternalClick]))
                (fresh nat_clock) in
  0 <= page_switches (self w) /\
  0 <= slow_responses (self w) /\
  0 <= external_clicks (self w) /\
  (0 <= ghosting_time (self w))%Q.
Proof.
  cbv zeta.
  destruct (reachable_counters_nonnegative
              (exec (perform_all (alternating ++ [UpdateGhostingTime;
                                                  RecordExternalClick]))
                    (fresh nat_clock)))
    as (Hp & Hs & He & Hg).
  - apply reachable_exec.
  - split; [exact Hp|]. split; [exact Hs|]. split; [exact He|]. apply Hg.
    destruct (perform_all_returns
                (alternating ++ [UpdateGhostingTime; RecordExternalClick])
                (fresh nat_clock)) as (_ & Hclk & _).
    rewrite Hclk. apply nat_clock_monotone.
Defined.
